(** * Resume matcher: a shallow embedding of the scoring core

    Sources: [src/resume_versel/app.py] (the vocabulary variant) and
    [src/api/index.py] (the skill-list variant).

    Modelling conventions.
    - Python [str] values are Rocq [string]s over ASCII; [str.lower] is the
      ASCII lower-casing and the regex class [\w] is ASCII letters, digits
      and [_].
    - Python floats are modelled by exact rationals [Q]; the quantities
      involved ([n/d*50] with [n <= d], [val*0.5]) lie in the same ranges
      either way.
    - An exception is a value of [Exc A]: [Ok a] or [Raise e]; a
      [try ... except Exception] block is [catch].
    - The LLM client, the JSON decoder, base64 decoding and the PDF/DOCX
      extractors are external; each is a universally quantified function. *)

From Stdlib Require Import ZArith QArith Qround List Permutation Bool Ascii String Lia.
Import ListNotations.
Open Scope string_scope.

(** ** Characters and strings *)

Definition is_upper (c : ascii) : bool :=
  let n := nat_of_ascii c in (65 <=? n)%nat && (n <=? 90)%nat.

Definition is_lower (c : ascii) : bool :=
  let n := nat_of_ascii c in (97 <=? n)%nat && (n <=? 122)%nat.

Definition is_digit (c : ascii) : bool :=
  let n := nat_of_ascii c in (48 <=? n)%nat && (n <=? 57)%nat.

(** The regex class [\w]. *)
Definition is_word (c : ascii) : bool :=
  is_upper c || is_lower c || is_digit c || (c =? "_")%char.

(** [str.lower] on one character. *)
Definition lower_char (c : ascii) : ascii :=
  if is_upper c then ascii_of_nat (nat_of_ascii c + 32) else c.

Fixpoint lower (s : string) : string :=
  match s with
  | EmptyString => EmptyString
  | String c s' => String (lower_char c) (lower s')
  end.

Definition memb (w : string) (l : list string) : bool :=
  existsb (String.eqb w) l.

(** [str.endswith]. *)
Definition endswith (s suffix : string) : bool :=
  let n := String.length s in
  let k := String.length suffix in
  (k <=? n)%nat && String.eqb (substring (n - k) k s) suffix.

(** [re.findall(r'\b\w+\b', s)]: the maximal runs of word characters, in
    order. [cur] holds the current run, reversed. *)
Fixpoint findall_words_aux (s : string) (cur : list ascii) : list string :=
  match s with
  | EmptyString =>
      match cur with [] => [] | _ => [string_of_list_ascii (rev cur)] end
  | String c s' =>
      if is_word c then findall_words_aux s' (c :: cur)
      else match cur with
           | [] => findall_words_aux s' []
           | _ => string_of_list_ascii (rev cur) :: findall_words_aux s' []
           end
  end.

Definition findall_words (s : string) : list string := findall_words_aux s [].

(** [sorted(...)] on strings (code-point order), as an insertion sort. *)
Fixpoint insert_sorted (x : string) (l : list string) : list string :=
  match l with
  | [] => [x]
  | y :: l' => if String.ltb y x then y :: insert_sorted x l' else x :: l
  end.

Fixpoint sorted (l : list string) : list string :=
  match l with
  | [] => []
  | x :: l' => insert_sorted x (sorted l')
  end.

(** ** Vocabulary variant: [app.py] *)

Definition STOP_WORDS : list string :=
  ["and"; "the"; "of"; "in"; "to"; "a"; "with"; "for"; "on";
   "is"; "are"; "that"; "by"; "as"; "this"; "an"; "or"; "at";
   "from"; "it"; "be"; "which"; "you"; "we"].

Definition KNOWN_SKILLS : list string :=
  ["python"; "java"; "sql"; "excel"; "machine learning"; "deep learning";
   "communication"; "teamwork"; "project management"; "docker"; "aws";
   "javascript"; "react"; "nodejs"; "git"; "linux"].

(** [set(re.findall(r'\b\w+\b', text.lower()))]: a set as a duplicate-free
    list. *)
Definition words_all (text : string) : list string :=
  nodup string_dec (findall_words (lower text)).

(** [{w for w in words_all if w not in STOP_WORDS and w in KNOWN_SKILLS}] *)
Definition skill_set (text : string) : list string :=
  filter (fun w => negb (memb w STOP_WORDS) && memb w KNOWN_SKILLS)
         (words_all text).

(** [n / d * 50] with Python's true division. *)
Definition ratio50 (n d : nat) : Q :=
  (inject_Z (Z.of_nat n) / inject_Z (Z.of_nat d)) * inject_Z 50.

Definition get_hard_match_score (resume_text jd_text : string)
  : Q * list string * list string :=
  let jd_skills := skill_set jd_text in
  let resume_skills := skill_set resume_text in
  match jd_skills with
  | [] => (0%Q, [], [])
  | _ =>
      let matched := filter (fun w => memb w jd_skills) resume_skills in
      let missing := filter (fun w => negb (memb w resume_skills)) jd_skills in
      let score := ratio50 (List.length matched) (List.length jd_skills) in
      (score, sorted matched, sorted missing)
  end.

(** ** Skill-list variant: [index.py] *)

(** [\b] at position [i] of [t]: exactly one of the characters at [i-1]
    and [i] is a word character (positions out of range are not). *)
Definition word_at (t : list ascii) (i : nat) : bool :=
  match nth_error t i with Some c => is_word c | None => false end.

Definition boundary (t : list ascii) (i : nat) : bool :=
  let before := match i with O => false | S j => word_at t j end in
  xorb before (word_at t i).

Fixpoint prefixb (p t : list ascii) : bool :=
  match p, t with
  | [], _ => true
  | c :: p', d :: t' => (c =? d)%char && prefixb p' t'
  | _ :: _, [] => false
  end.

(** [re.search(r'\b' + re.escape(p) + r'\b', t)] succeeds: [re.escape] makes
    [p] a literal, so the pattern matches at [i] when [p] occurs at [i] with
    a word boundary on both sides. *)
Definition search_word (p t : string) : bool :=
  let pl := list_ascii_of_string p in
  let tl := list_ascii_of_string t in
  existsb (fun i => prefixb pl (skipn i tl) && boundary tl i
                    && boundary tl (i + List.length pl))
          (seq 0 (S (List.length tl))).

Definition get_hard_match_score_list (resume_text : string)
  (required_skills : list string) : Q * list string * list string :=
  match required_skills with
  | [] => (0%Q, [], [])
  | _ =>
      let resume_text_lower := lower resume_text in
      let matched := filter (fun skill => search_word (lower skill) resume_text_lower)
                            required_skills in
      let missing := filter (fun skill => negb (memb skill matched)) required_skills in
      let score := ratio50 (List.length matched) (List.length required_skills) in
      (score, matched, missing)
  end.

(** ** Exceptions and Python values *)

Inductive exn : Type :=
| ValueError | TypeError | AttributeError | OverflowError
| JSONDecodeError | RecursionError | Base64Error
| LLMError (msg : string).

Inductive Exc (A : Type) : Type :=
| Ok (a : A)
| Raise (e : exn).
Arguments Ok {A} a.
Arguments Raise {A} e.

Definition bind {A B} (m : Exc A) (k : A -> Exc B) : Exc B :=
  match m with Ok a => k a | Raise e => Raise e end.

Notation "x <- m ;; k" := (bind m (fun x => k))
  (at level 61, m at next level, right associativity).

(** [try: m  except Exception: h] *)
Definition catch {A} (m : Exc A) (h : exn -> A) : Exc A :=
  match m with Ok a => Ok a | Raise e => Ok (h e) end.

Set Warnings "-register-all".

(** Values produced by [json.loads]. A dict is an association list with
    distinct keys; [PFloatNonFinite] stands for [inf], [-inf] and [nan]. *)
Inductive pyval : Type :=
| PNone
| PBool (b : bool)
| PInt (z : Z)
| PFloat (q : Q)
| PFloatNonFinite
| PStr (s : string)
| PList (l : list pyval)
| PDict (kvs : list (string * pyval)).

(** Python truthiness, as used by [x or y]. *)
Definition truthy (v : pyval) : bool :=
  match v with
  | PNone => false
  | PBool b => b
  | PInt z => negb (z =? 0)%Z
  | PFloat q => negb (Qeq_bool q 0)
  | PFloatNonFinite => true
  | PStr s => negb (String.eqb s "")
  | PList l => match l with [] => false | _ => true end
  | PDict kvs => match kvs with [] => false | _ => true end
  end.

(** [d.get(key, default)]; [.get] exists only on dicts. *)
Definition py_get (d : pyval) (key : string) (default : pyval) : Exc pyval :=
  match d with
  | PDict kvs =>
      match find (fun kv => String.eqb (fst kv) key) kvs with
      | Some kv => Ok (snd kv)
      | None => Ok default
      end
  | _ => Raise AttributeError
  end.

(** Decimal digits to an integer. *)
Fixpoint digits_value_aux (acc : Z) (ds : list ascii) : Z :=
  match ds with
  | [] => acc
  | d :: ds' => digits_value_aux (10 * acc + (Z.of_nat (nat_of_ascii d) - 48)) ds'
  end.

Definition digits_value (ds : list ascii) : Z := digits_value_aux 0 ds.

(** Python's whitespace among ASCII characters, as [str.strip()] and
    [int()] skip it. *)
Definition is_space (c : ascii) : bool :=
  let n := nat_of_ascii c in
  (n =? 32)%nat || ((9 <=? n)%nat && (n <=? 13)%nat) || ((28 <=? n)%nat && (n <=? 31)%nat).

Fixpoint drop_while (f : ascii -> bool) (l : list ascii) : list ascii :=
  match l with
  | [] => []
  | c :: l' => if f c then drop_while f l' else l
  end.

(** [str.strip()] *)
Definition strip (l : list ascii) : list ascii :=
  rev (drop_while is_space (rev (drop_while is_space l))).

(** Decimal digits, with single underscores allowed between two digits. *)
Fixpoint digits_underscored (ds : list ascii) : bool :=
  match ds with
  | [] => false
  | c :: t =>
      is_digit c &&
      match t with
      | [] => true
      | d :: t' => if (d =? "_")%char then digits_underscored t' else digits_underscored t
      end
  end.

Definition unsigned_digits (ds : list ascii) : Exc Z :=
  if digits_underscored ds then Ok (digits_value (filter is_digit ds))
  else Raise ValueError.

(** [int(s)] for a string: surrounding whitespace, an optional sign and at
    least one decimal digit, with [_] separators between digits. *)
Definition py_int_of_string (s : string) : Exc Z :=
  match strip (list_ascii_of_string s) with
  | c :: ds =>
      if (c =? "-")%char then z <- unsigned_digits ds ;; Ok (- z)%Z
      else if (c =? "+")%char then unsigned_digits ds
      else unsigned_digits (c :: ds)
  | [] => Raise ValueError
  end.

(** [int(v)]; [int(inf)] raises [OverflowError] and [int(nan)] [ValueError],
    both exceptions alike for the callers here. *)
Definition py_int (v : pyval) : Exc Z :=
  match v with
  | PInt z => Ok z
  | PBool b => Ok (if b then 1 else 0)%Z
  | PFloat q => Ok (Z.quot (Qnum q) (Zpos (Qden q)))
  | PFloatNonFinite => Raise OverflowError
  | PStr s => py_int_of_string s
  | _ => Raise TypeError
  end.

(** ** Parsing the LLM response: [parse_llm_json_response] in [index.py] *)

(** The prefix of [l] up to and including the last occurrence of [d]. *)
Definition upto_last (d : ascii) (l : list ascii) : list ascii :=
  rev (drop_while (fun c => negb (c =? d)%char) (rev l)).

Definition memc (d : ascii) (l : list ascii) : bool :=
  existsb (fun c => (c =? d)%char) l.

(** [re.search(r'\{.*\}|\[.*\]', s, re.DOTALL)]: the leftmost position where
    one alternative matches; each [.*] is greedy, so the match runs to the
    last closing character of the string. *)
Fixpoint json_search (l : list ascii) : option (list ascii) :=
  match l with
  | [] => None
  | c :: t =>
      if (c =? "{")%char && memc "}" t then Some (c :: upto_last "}" t)
      else if (c =? "[")%char && memc "]" t then Some (c :: upto_last "]" t)
      else json_search t
  end.

Section Parser.

(** [json.loads]: the decoded value, or the exception it raises:
    [JSONDecodeError] for malformed text, and others for well-formed text
    it cannot build ([RecursionError] for too deeply nested arrays or
    objects, [ValueError] for an integer literal of more than 4300 digits). *)
Variable json_loads : string -> Exc pyval.

(** [default_value or {}]; [None] is Python's [None]. *)
Definition or_empty_dict (default_value : option pyval) : pyval :=
  match default_value with
  | Some v => if truthy v then v else PDict []
  | None => PDict []
  end.

Definition parse_llm_json_response (response_text : string)
  (default_value : option pyval) : Exc pyval :=
  match json_search (list_ascii_of_string response_text) with
  | None => Ok (or_empty_dict default_value)
  | Some m =>
      match json_loads (string_of_list_ascii m) with
      | Ok v => Ok v
      | Raise JSONDecodeError => Ok (or_empty_dict default_value)
      | Raise e => Raise e
      end
  end.

End Parser.

(** ** Semantic analysis *)

(** [llm] is [None] or a client; a call to the client returns the response
    text or raises. *)
Definition llm_call := Exc string.

(** [re.search(r'\d+', text)]: the leftmost maximal run of digits. *)
Fixpoint first_digit_run (l : list ascii) : option (list ascii) :=
  match l with
  | [] => None
  | c :: t =>
      if is_digit c then
        Some (c :: (fix take (u : list ascii) : list ascii :=
                      match u with
                      | [] => []
                      | d :: u' => if is_digit d then d :: take u' else []
                      end) t)
      else first_digit_run t
  end.

(** Python's [min(a, b)] and [max(a, b)] on numbers. *)
Definition py_min (a b : Q) : Q := if Qle_bool a b then a else b.
Definition py_max (a b : Q) : Q := if Qle_bool b a then a else b.

(** [max(lo, min(x, hi))] *)
Definition clamp (lo hi x : Q) : Q := py_max lo (py_min x hi).

(** [get_semantic_match_score] in [app.py]. [.strip()] does not change the
    leftmost digit run, so the search runs on the raw text. *)
Definition get_semantic_match_score (llm_present : bool) (call : llm_call) : Exc Q :=
  if negb llm_present then Ok 0%Q
  else catch
    (text <- call ;;
     match first_digit_run (list_ascii_of_string text) with
     | Some ds =>
         let val := digits_value ds in
         let val := Z.max 0 (Z.min val 100) in
         Ok (inject_Z val * (1 # 2))%Q
     | None => Ok (inject_Z 25)
     end)
    (fun _ => 0%Q).

(** [get_feedback_and_suggestions] in [app.py]. *)
Definition get_feedback_and_suggestions (llm_present : bool) (call : llm_call)
  : Exc string :=
  if negb llm_present then Ok "LLM not available. Please set the GOOGLE_API_KEY."
  else catch
    (text <- call ;; Ok (string_of_list_ascii (strip (list_ascii_of_string text))))
    (fun _ => "Could not generate suggestions due to an error.").

Record llm_analysis := { an_score : Q; an_suggestions : pyval }.

(** Python's [n / 100] on an int raises [OverflowError] when the quotient,
    rounded to the nearest double, is infinite: from [2^1024 - 2^970] on,
    half-way between the largest double and [2^1024]. *)
Definition float_overflow_bound : Z := Z.pow 2 1024 - Z.pow 2 970.

(** [get_llm_analysis] in [index.py]. *)
Definition get_llm_analysis (json_loads : string -> Exc pyval)
  (llm_present : bool) (call : llm_call) : Exc llm_analysis :=
  if negb llm_present then
    Ok {| an_score := 0; an_suggestions := PStr "LLM not available." |}
  else catch
    (response_text <- call ;;
     parsed_json <- parse_llm_json_response json_loads response_text
                      (Some (PDict [("score", PInt 0);
                                    ("suggestions", PStr "Error parsing AI feedback.")])) ;;
     sc <- py_get parsed_json "score" (PInt 0) ;;
     n <- py_int sc ;;
     if (100 * float_overflow_bound <=? Z.abs n)%Z then Raise OverflowError
     else
       (* computed exactly; the float product [(n / 100) * 50] can differ
          from it in the last bit (28.000000000000004 for n = 56) *)
       let normalized_score := (inject_Z n / inject_Z 100 * inject_Z 50)%Q in
       sug <- py_get parsed_json "suggestions" (PStr "No suggestions generated.") ;;
       Ok {| an_score := py_max 0 (py_min normalized_score 50); an_suggestions := sug |})
    (fun _ => {| an_score := 0; an_suggestions := PStr "Error during AI analysis." |}).

(** ** Score combiner *)

(** Python's [round(x)] on a float: to the nearest integer, ties to even. *)
Definition py_round (x : Q) : Z :=
  let f := Qfloor x in
  let r := (x - inject_Z f)%Q in
  match Qcompare r (1 # 2) with
  | Lt => f
  | Gt => f + 1
  | Eq => if Z.even f then f else f + 1
  end%Z.

Definition verdict (total_score : Z) : string :=
  if (80 <=? total_score)%Z then "High"
  else if (50 <=? total_score)%Z then "Medium"
  else "Low".

(** Lines 179-183 of [app.py] and 188-192 of [index.py]: score one resume. *)
Record scored := {
  sc_hard : Q; sc_semantic : Q; sc_total : Z; sc_verdict : string;
  sc_matched : list string; sc_missing : list string; sc_suggestions : pyval }.

Definition score_resume_app (llm_present : bool) (semantic_call feedback_call : llm_call)
  (resume_text jd_text : string) : Exc scored :=
  let '(hard_score, matched_skills, missing_skills) :=
    get_hard_match_score resume_text jd_text in
  semantic_score <- get_semantic_match_score llm_present semantic_call ;;
  suggestions <- get_feedback_and_suggestions llm_present feedback_call ;;
  let total_score := py_round (hard_score + semantic_score) in
  Ok {| sc_hard := hard_score; sc_semantic := semantic_score;
        sc_total := total_score; sc_verdict := verdict total_score;
        sc_matched := matched_skills; sc_missing := missing_skills;
        sc_suggestions := PStr suggestions |}.

Definition score_resume_index (json_loads : string -> Exc pyval)
  (llm_present : bool) (analysis_call : llm_call)
  (resume_text : string) (jd_skills : list string) : Exc scored :=
  let '(hard_score, matched_skills, missing_skills) :=
    get_hard_match_score_list resume_text jd_skills in
  llm_results <- get_llm_analysis json_loads llm_present analysis_call ;;
  let total_score := py_round (hard_score + an_score llm_results) in
  Ok {| sc_hard := hard_score; sc_semantic := an_score llm_results;
        sc_total := total_score; sc_verdict := verdict total_score;
        sc_matched := matched_skills; sc_missing := missing_skills;
        sc_suggestions := an_suggestions llm_results |}.

(** ** Request orchestration: the loops of [handler.do_POST] *)

(** A resume entry: [res.get('fileName')] and [res.get('content')]. *)
Record entry := { fileName : option string; content : option string }.

Record result_app := {
  ra_resumeName : string; ra_candidateName : string; ra_candidateEmail : string;
  ra_score : Z; ra_verdict : string; ra_matchedSkills : list string;
  ra_missingSkills : list string; ra_suggestions : pyval }.

Record result_index := {
  ri_candidateName : string; ri_candidateEmail : string; ri_score : Z;
  ri_verdict : string; ri_missingSkills : list string; ri_suggestions : pyval }.

(** [s.split(',', 1)] unpacked into two names. *)
Fixpoint split_comma (s : string) : option (string * string) :=
  match s with
  | EmptyString => None
  | String c s' =>
      if (c =? ",")%char then Some (EmptyString, s')
      else match split_comma s' with
           | Some (h, t) => Some (String c h, t)
           | None => None
           end
  end.

Section Orchestrator.

Variable b64decode : string -> option (list Byte.byte).
Variable extract_text_from_pdf : list Byte.byte -> string.
Variable extract_text_from_docx : list Byte.byte -> string.
(** The best-effort name and email regex searches ("N/A" when absent). *)
Variable candidate_name_of : string -> string.
Variable candidate_email_of : string -> string.
Variable llm_present : bool.
(** The LLM's behaviour on a prompt built from a given resume text. *)
Variable semantic_call feedback_call analysis_call : string -> llm_call.
Variable json_loads : string -> Exc pyval.

Definition attr {A} (v : option A) : Exc A :=
  match v with Some a => Ok a | None => Raise AttributeError end.

(** [header, base64_content = content.split(',', 1)];
    [file_bytes = base64.b64decode(base64_content)] *)
Definition decode_content (e : entry) : Exc (list Byte.byte) :=
  c <- attr (content e) ;;
  match split_comma c with
  | None => Raise ValueError
  | Some (_, base64_content) =>
      match b64decode base64_content with
      | Some file_bytes => Ok file_bytes
      | None => Raise Base64Error
      end
  end.

(** The extension dispatch. *)
Definition extract_resume_text (file_name : string) (file_bytes : list Byte.byte) : string :=
  if endswith (lower file_name) ".pdf" then extract_text_from_pdf file_bytes
  else if endswith (lower file_name) ".docx" then extract_text_from_docx file_bytes
  else "".

(** The loop body of [app.py]. *)
Definition analyse_entry_app (job_description_text : string) (res : entry)
  : Exc result_app :=
  file_bytes <- decode_content res ;;
  file_name <- attr (fileName res) ;;
  let resume_text := extract_resume_text file_name file_bytes in
  let candidate_name := candidate_name_of resume_text in
  let candidate_email := candidate_email_of resume_text in
  r <- score_resume_app llm_present (semantic_call resume_text)
         (feedback_call resume_text) resume_text job_description_text ;;
  Ok {| ra_resumeName := file_name; ra_candidateName := candidate_name;
        ra_candidateEmail := candidate_email; ra_score := sc_total r;
        ra_verdict := sc_verdict r; ra_matchedSkills := sc_matched r;
        ra_missingSkills := sc_missing r; ra_suggestions := sc_suggestions r |}.

Fixpoint process_resumes_app (job_description_text : string) (resumes : list entry)
  : Exc (list result_app) :=
  match resumes with
  | [] => Ok []
  | res :: rest =>
      r <- analyse_entry_app job_description_text res ;;
      rs <- process_resumes_app job_description_text rest ;;
      Ok (r :: rs)
  end.

(** The loop body of [index.py]; [None] is [continue]. *)
Definition analyse_entry_index (jd_skills : list string) (res : entry)
  : Exc (option result_index) :=
  file_bytes <- decode_content res ;;
  file_name <- attr (fileName res) ;;
  let resume_text := extract_resume_text file_name file_bytes in
  if String.eqb resume_text "" then Ok None
  else
    let candidate_email := candidate_email_of resume_text in
    r <- score_resume_index json_loads llm_present (analysis_call resume_text)
           resume_text jd_skills ;;
    Ok (Some {| ri_candidateName := file_name; ri_candidateEmail := candidate_email;
                ri_score := sc_total r; ri_verdict := sc_verdict r;
                ri_missingSkills := sc_missing r; ri_suggestions := sc_suggestions r |}).

Fixpoint process_resumes_index (jd_skills : list string) (resumes : list entry)
  : Exc (list result_index) :=
  match resumes with
  | [] => Ok []
  | res :: rest =>
      o <- analyse_entry_index jd_skills res ;;
      rs <- process_resumes_index jd_skills rest ;;
      match o with Some r => Ok (r :: rs) | None => Ok rs end
  end.

End Orchestrator.

(** ** Other helpers of [app.py] *)

Definition MAX_RESUME_SIZE_MB : Z := 200.

(** [(len(file_bytes) / (1024 * 1024)) > MAX_RESUME_SIZE_MB]; the division
    by a power of two is exact in floating point. *)
Definition is_too_large (file_bytes : list Byte.byte) : bool :=
  negb (Qle_bool (inject_Z (Z.of_nat (List.length file_bytes)) / inject_Z (1024 * 1024))
                 (inject_Z MAX_RESUME_SIZE_MB)).

(** [sep.join(l)] *)
Fixpoint join (sep : string) (l : list string) : string :=
  match l with
  | [] => ""
  | [x] => x
  | x :: l' => x ++ sep ++ join sep l'
  end.

Definition format_skills_list (skills_list : list string) : string :=
  match skills_list with
  | [] => "None"
  | _ => join ", " skills_list
  end.

(** Python's whitespace among ASCII characters ([str.isspace], regex [\s]). *)
Definition is_py_space (c : ascii) : bool :=
  let n := nat_of_ascii c in
  (n =? 32)%nat || ((9 <=? n)%nat && (n <=? 13)%nat) || ((28 <=? n)%nat && (n <=? 31)%nat).

(** [str.strip()] *)
Definition py_strip (s : string) : string :=
  string_of_list_ascii
    (rev (drop_while is_py_space (rev (drop_while is_py_space (list_ascii_of_string s))))).

(** Line boundaries of [str.splitlines] among ASCII characters; ["\r\n"]
    counts as one. *)
Definition is_line_break (c : ascii) : bool :=
  let n := nat_of_ascii c in
  ((10 <=? n)%nat && (n <=? 13)%nat) || ((28 <=? n)%nat && (n <=? 30)%nat).

Fixpoint splitlines_aux (l : list ascii) (cur : list ascii) : list string :=
  match l with
  | [] => match cur with [] => [] | _ => [string_of_list_ascii (rev cur)] end
  | c :: t =>
      if (nat_of_ascii c =? 13)%nat then
        match t with
        | d :: t' => if (nat_of_ascii d =? 10)%nat
                     then string_of_list_ascii (rev cur) :: splitlines_aux t' []
                     else string_of_list_ascii (rev cur) :: splitlines_aux t []
        | [] => string_of_list_ascii (rev cur) :: splitlines_aux t []
        end
      else if is_line_break c then string_of_list_ascii (rev cur) :: splitlines_aux t []
      else splitlines_aux t (c :: cur)
  end.

(** [str.splitlines()] *)
Definition splitlines (s : string) : list string :=
  splitlines_aux (list_ascii_of_string s) [].

(** [re.match(r'^[A-Z][a-z]+(?:\s+[A-Z][a-z]+)+$', s)], as an automaton:
    state 0 expects a capital, 1 a first small letter, 2 is inside the small
    letters of a word, 3 inside the whitespace between words; [words] counts
    the words read. [$] also matches before a final newline. The three
    character classes are disjoint, so no backtracking is needed. *)
Fixpoint name_dfa (st words : nat) (l : list ascii) : bool :=
  match l with
  | [] => (st =? 2)%nat && (2 <=? words)%nat
  | c :: t =>
      ((st =? 2)%nat && (2 <=? words)%nat &&
         match l with ["010"%char] => true | _ => false end) ||
      match st with
      | O => if is_upper c then name_dfa 1 (S words) t else false
      | S O => if is_lower c then name_dfa 2 words t else false
      | S (S O) => if is_lower c then name_dfa 2 words t
             else if is_py_space c then name_dfa 3 words t else false
      | _ => if is_py_space c then name_dfa 3 words t
             else if is_upper c then name_dfa 1 (S words) t else false
      end
  end.

Definition name_match (s : string) : bool := name_dfa 0 0 (list_ascii_of_string s).

(** [next((line.strip() for line in resume_text.strip().splitlines()[:5]
    if re.match(..., line.strip())), "N/A")] *)
Definition candidate_name (resume_text : string) : string :=
  match find (fun line => name_match (py_strip line))
             (firstn 5 (splitlines (py_strip resume_text))) with
  | Some line => py_strip line
  | None => "N/A"
  end.

(** ** The job description of a request (both handlers) *)

Definition contains (s sub : string) : bool :=
  match String.index 0 sub s with Some _ => true | None => false end.

Section JobDescription.

Variable b64decode : string -> option (list Byte.byte).
Variable extract_text_from_pdf extract_text_from_docx : list Byte.byte -> string.

(** [job_description_data = body.get('job_description', '')] and the
    decoding of a [data:] URL; any other value is used as it is. *)
Definition job_description_text (body : pyval) : Exc pyval :=
  job_description_data <- py_get body "job_description" (PStr "") ;;
  match job_description_data with
  | PStr s =>
      if String.prefix "data:" s then
        match split_comma s with
        | None => Raise ValueError
        | Some (header, jd_base64) =>
            match b64decode jd_base64 with
            | None => Raise Base64Error
            | Some jd_bytes =>
                if contains (lower header) "pdf" then Ok (PStr (extract_text_from_pdf jd_bytes))
                else if contains (lower header) "wordprocessingml"
                then Ok (PStr (extract_text_from_docx jd_bytes))
                else Ok (PStr "")
            end
        end
      else Ok (PStr s)
  | v => Ok v
  end.

(** [index.py]: [if not job_description_text: raise ValueError(...)]. *)
Definition job_description_text_index (body : pyval) : Exc pyval :=
  t <- job_description_text body ;;
  if truthy t then Ok t else Raise ValueError.

End JobDescription.

(** ** Reading back formatted skill lists *)

(** Python's [s.split(", ")], the inverse used to read a formatted list back. *)
Definition push_char (c : ascii) (l : list string) : list string :=
  match l with x :: r => String c x :: r | [] => [String c ""] end.

Fixpoint split_comma_space (s : string) : list string :=
  match s with
  | EmptyString => [""]
  | String c t =>
      if (c =? ",")%char then
        match t with
        | String d t' => if (d =? " ")%char then "" :: split_comma_space t'
                         else push_char c (split_comma_space t)
        | EmptyString => push_char c (split_comma_space t)
        end
      else push_char c (split_comma_space t)
  end.

Definition parse_skills_formatted (s : string) : list string :=
  if String.eqb s "None" then [] else split_comma_space s.

Definition no_comma (x : string) : bool :=
  forallb (fun c => negb (c =? ",")%char) (list_ascii_of_string x).

(** Letters and whitespace, the characters of a name line. *)
Definition letter_or_space (c : ascii) : bool := is_upper c || is_lower c || is_py_space c.

(** ** Outcome of one resume entry of the request loops *)

(** The exception an entry raises before scoring (lines 167-169 of
    [app.py], 175-177 of [index.py]): missing content, no comma, invalid
    base64, then a missing file name; scoring itself never raises. *)
Definition entry_error (b64decode : string -> option (list Byte.byte)) (e : entry)
  : option exn :=
  match decode_content b64decode e with
  | Raise ex => Some ex
  | Ok _ => match fileName e with Some _ => None | None => Some AttributeError end
  end.


(** The file name an entry contributes to the results of [index.py]: none
    when its extracted text is empty ([continue]). *)
Definition index_kept (b64decode : string -> option (list Byte.byte))
  (extract_text_from_pdf extract_text_from_docx : list Byte.byte -> string)
  (e : entry) : list string :=
  match decode_content b64decode e, fileName e with
  | Ok file_bytes, Some file_name =>
      if String.eqb (extract_resume_text extract_text_from_pdf extract_text_from_docx
                       file_name file_bytes) "" then []
      else [file_name]
  | _, _ => []
  end.

(** * Properties *)

(** ** Lists and strings *)

Lemma memb_In (w : string) (l : list string) : memb w l = true <-> In w l.
Proof.
  unfold memb. rewrite existsb_exists. split.
  - intros [x [Hx Heq]]. apply String.eqb_eq in Heq. now subst.
  - intros H. exists w. split; [exact H | apply String.eqb_refl].
Qed.

Lemma memb_false_In (w : string) (l : list string) : memb w l = false <-> ~ In w l.
Proof.
  rewrite <- memb_In. destruct (memb w l); split; congruence.
Qed.

Lemma insert_sorted_perm (x : string) (l : list string) :
  Permutation (insert_sorted x l) (x :: l).
Proof.
  induction l as [|y l IH]; simpl; [constructor; constructor|].
  destruct (String.ltb y x).
  - eapply perm_trans; [apply perm_skip, IH | apply perm_swap].
  - apply Permutation_refl.
Qed.

Lemma sorted_perm (l : list string) : Permutation (sorted l) l.
Proof.
  induction l as [|x l IH]; simpl; [constructor|].
  eapply perm_trans; [apply insert_sorted_perm | now apply perm_skip].
Qed.

Lemma In_sorted (w : string) (l : list string) : In w (sorted l) <-> In w l.
Proof.
  split; apply Permutation_in; [|symmetry]; apply sorted_perm.
Qed.

Lemma NoDup_sorted (l : list string) : NoDup l -> NoDup (sorted l).
Proof.
  intros H. eapply Permutation_NoDup; [symmetry; apply sorted_perm | exact H].
Qed.

(** ** Tokens *)

Lemma forallb_rev {A} (f : A -> bool) (l : list A) :
  forallb f (rev l) = forallb f l.
Proof.
  induction l as [|x l IH]; simpl; [reflexivity|].
  rewrite forallb_app, IH. simpl. now rewrite andb_true_r, andb_comm.
Qed.

Lemma findall_words_aux_word (s : string) : forall cur w,
  forallb is_word cur = true -> In w (findall_words_aux s cur) ->
  forallb is_word (list_ascii_of_string w) = true.
Proof.
  induction s as [|c s IH]; intros cur w Hcur Hin; simpl in Hin.
  - destruct cur; [contradiction|].
    destruct Hin as [<- | []].
    rewrite list_ascii_of_string_of_list_ascii, forallb_rev. exact Hcur.
  - destruct (is_word c) eqn:Hc.
    + apply (IH (c :: cur)); [simpl; now rewrite Hc | exact Hin].
    + destruct cur as [|c' cur'].
      * now apply (IH []).
      * destruct Hin as [<- | Hin].
        -- rewrite list_ascii_of_string_of_list_ascii, forallb_rev. exact Hcur.
        -- now apply (IH []).
Qed.

(** Every token of [re.findall(r'\b\w+\b', s)] consists of word characters. *)
Lemma findall_words_word (s w : string) :
  In w (findall_words s) -> forallb is_word (list_ascii_of_string w) = true.
Proof. intros H. now apply (findall_words_aux_word s []). Qed.

Lemma In_skill_set (t w : string) :
  In w (skill_set t) <->
  In w (findall_words (lower t)) /\ ~ In w STOP_WORDS /\ In w KNOWN_SKILLS.
Proof.
  unfold skill_set, words_all. rewrite filter_In, nodup_In, andb_true_iff,
    negb_true_iff, memb_false_In, memb_In. tauto.
Qed.

Lemma NoDup_skill_set (t : string) : NoDup (skill_set t).
Proof. apply NoDup_filter, NoDup_nodup. Qed.

Lemma skill_set_word (t w : string) :
  In w (skill_set t) -> forallb is_word (list_ascii_of_string w) = true.
Proof. intros H. apply In_skill_set in H. now apply (findall_words_word (lower t)). Qed.

(** ** Claims on the hard-match scorers and the verdict *)

(** [C2]: the verdict is a function of the total alone, with fixed thresholds:
    [total >= 80] gives "High", [50 <= total < 80] "Medium", [total < 50]
    "Low". *)
Theorem verdict_thresholds (total_score : Z) :
  (verdict total_score = "High" <-> (80 <= total_score)%Z) /\
  (verdict total_score = "Medium" <-> (50 <= total_score < 80)%Z) /\
  (verdict total_score = "Low" <-> (total_score < 50)%Z).
Proof.
  unfold verdict.
  destruct (Z.leb_spec 80 total_score); destruct (Z.leb_spec 50 total_score);
    repeat split; intros; try lia; try discriminate; reflexivity.
Qed.

(** [C3] (vocabulary variant, [app.py]): [jd_skills] and [resume_skills] are
    the lower-cased word tokens of each text that are not stop-words and are
    known skills; if [jd_skills] is empty the result is [(0, [], [])];
    otherwise [matched] holds exactly the skills in both, [missing] the job
    skills absent from the resume (each without repetition), and the score
    is [|matched| / |jd_skills| * 50]. On the job description "Required:
    Python and SQL" and the resume "Python developer" the result is
    [(25, ["python"], ["sql"])]. *)
Theorem hard_match_vocabulary (resume_text jd_text : string) :
  (forall t w, In w (skill_set t) <->
     In w (findall_words (lower t)) /\ ~ In w STOP_WORDS /\ In w KNOWN_SKILLS) /\
  (let '(score, matched, missing) := get_hard_match_score resume_text jd_text in
   (skill_set jd_text = [] /\ score = 0%Q /\ matched = [] /\ missing = []) \/
   (skill_set jd_text <> [] /\
    (forall w, In w matched <-> In w (skill_set resume_text) /\ In w (skill_set jd_text)) /\
    (forall w, In w missing <-> In w (skill_set jd_text) /\ ~ In w (skill_set resume_text)) /\
    NoDup matched /\ NoDup missing /\
    score = ratio50 (List.length matched) (List.length (skill_set jd_text)))) /\
  (let '(score, matched, missing) :=
     get_hard_match_score "Python developer" "Required: Python and SQL" in
   score == 25 /\ matched = ["python"] /\ missing = ["sql"])%Q.
Proof.
  split; [exact In_skill_set|]. split; [|vm_compute; repeat split; reflexivity].
  unfold get_hard_match_score.
  destruct (skill_set jd_text) as [|j js] eqn:Hj; [left; repeat split|right].
  rewrite <- Hj. split; [congruence|].
  split; [|split; [|split; [|split]]].
  - intros w. rewrite In_sorted, filter_In, memb_In. reflexivity.
  - intros w. rewrite In_sorted, filter_In, negb_true_iff, memb_false_In.
    reflexivity.
  - apply NoDup_sorted, NoDup_filter, NoDup_skill_set.
  - apply NoDup_sorted, NoDup_filter, NoDup_skill_set.
  - f_equal. apply Permutation_length. symmetry. apply sorted_perm.
Qed.

(** [C9]: in both variants [matched] and [missing] partition the required
    skills: a skill is in one of them exactly when it is required, and never
    in both. *)
Theorem hard_match_partition (resume_text jd_text : string)
  (required_skills : list string) :
  (let '(_, matched, missing) := get_hard_match_score resume_text jd_text in
   forall w, ((In w matched \/ In w missing) <-> In w (skill_set jd_text)) /\
             ~ (In w matched /\ In w missing)) /\
  (let '(_, matched, missing) := get_hard_match_score_list resume_text required_skills in
   forall w, ((In w matched \/ In w missing) <-> In w required_skills) /\
             ~ (In w matched /\ In w missing)).
Proof.
  split.
  - unfold get_hard_match_score.
    destruct (skill_set jd_text) as [|j js] eqn:Hj; [intros w; simpl; tauto|].
    rewrite <- Hj. intros w.
    rewrite !In_sorted, !filter_In, negb_true_iff, memb_false_In, memb_In.
    destruct (in_dec string_dec w (skill_set resume_text)); tauto.
  - unfold get_hard_match_score_list.
    destruct required_skills as [|r rs]; [intros w; simpl; tauto|].
    intros w. rewrite !filter_In, negb_true_iff, memb_false_In, !filter_In.
    destruct (search_word (lower w) (lower resume_text)); intuition congruence.
Qed.

Definition multi_word_skills : list string :=
  ["machine learning"; "deep learning"; "project management"].

(** [C10]: the multi-word vocabulary entries are known skills, yet none of
    them is ever a job skill, a resume skill, matched or missing, whatever
    the texts; e.g. for texts that contain "machine learning" verbatim the
    hard-match result is [(0, [], [])]. *)
Theorem multi_word_skills_unreachable (resume_text jd_text : string) :
  Forall (fun w => In w KNOWN_SKILLS) multi_word_skills /\
  (let '(_, matched, missing) := get_hard_match_score resume_text jd_text in
   Forall (fun w => ~ In w (skill_set jd_text) /\ ~ In w (skill_set resume_text) /\
                    ~ In w matched /\ ~ In w missing) multi_word_skills) /\
  get_hard_match_score "Expert in machine learning" "We need machine learning"
    = (0%Q, [], []).
Proof.
  split; [repeat constructor; simpl; tauto|]. split; [|reflexivity].
  assert (Hno : forall t w, In w multi_word_skills -> ~ In w (skill_set t)).
  { intros t w Hw Hin. apply skill_set_word in Hin.
    simpl in Hw. destruct Hw as [<- | [<- | [<- | []]]]; discriminate Hin. }
  pose proof (hard_match_partition resume_text jd_text []) as [Hp _].
  destruct (get_hard_match_score resume_text jd_text) as [[s m] mi].
  apply Forall_forall. intros w Hw.
  pose proof (Hno jd_text w Hw) as Hj. pose proof (Hno resume_text w Hw) as Hr.
  destruct (Hp w) as [Hiff _].
  repeat split; try assumption; intros H; apply Hj, Hiff; tauto.
Qed.

(** ** Score ranges *)

Lemma ratio50_bounds (n d : nat) : (n <= d)%nat -> (0 <= ratio50 n d <= 50)%Q.
Proof.
  intros Hnd. unfold ratio50.
  destruct d as [|d].
  - assert (n = 0%nat) by lia. subst. simpl. split; discriminate.
  - assert (Hd : (0 < inject_Z (Z.of_nat (S d)))%Q).
    { change 0%Q with (inject_Z 0). rewrite <- Zlt_Qlt. lia. }
    assert (Hn : (0 <= inject_Z (Z.of_nat n))%Q).
    { change 0%Q with (inject_Z 0). rewrite <- Zle_Qle. lia. }
    assert (Hle : (inject_Z (Z.of_nat n) <= inject_Z (Z.of_nat (S d)))%Q).
    { rewrite <- Zle_Qle. lia. }
    split.
    + apply Qmult_le_0_compat; [apply Qle_shift_div_l; [exact Hd|] | discriminate].
      rewrite Qmult_0_l. exact Hn.
    + apply Qle_trans with (1 * inject_Z 50)%Q; [|unfold Qle; simpl; lia].
      apply Qmult_le_compat_r; [|discriminate].
      apply Qle_shift_div_r; [exact Hd|]. rewrite Qmult_1_l. exact Hle.
Qed.

Lemma hard_vocabulary_bounds (resume_text jd_text : string) :
  let '(score, _, _) := get_hard_match_score resume_text jd_text in
  (0 <= score <= 50)%Q.
Proof.
  unfold get_hard_match_score.
  destruct (skill_set jd_text) as [|j js] eqn:Hj; [split; discriminate|].
  rewrite <- Hj. apply ratio50_bounds.
  apply NoDup_incl_length.
  - apply NoDup_filter, NoDup_skill_set.
  - intros w Hw. apply filter_In in Hw. now apply memb_In.
Qed.

Lemma hard_list_bounds (resume_text : string) (required_skills : list string) :
  let '(score, _, _) := get_hard_match_score_list resume_text required_skills in
  (0 <= score <= 50)%Q.
Proof.
  unfold get_hard_match_score_list.
  destruct required_skills as [|r rs]; [split; discriminate|].
  apply ratio50_bounds, filter_length_le.
Qed.

Lemma py_min_le (a b : Q) : (py_min a b <= a /\ py_min a b <= b)%Q.
Proof.
  unfold py_min. destruct (Qle_bool a b) eqn:H.
  - apply Qle_bool_iff in H. split; [apply Qle_refl | exact H].
  - assert (~ (a <= b)%Q) as Hn by (rewrite <- Qle_bool_iff; congruence).
    apply Qnot_le_lt in Hn. split; [now apply Qlt_le_weak | apply Qle_refl].
Qed.

Lemma py_max_ge (a b : Q) : (a <= py_max a b /\ b <= py_max a b)%Q.
Proof.
  unfold py_max. destruct (Qle_bool b a) eqn:H.
  - apply Qle_bool_iff in H. split; [apply Qle_refl | exact H].
  - assert (~ (b <= a)%Q) as Hn by (rewrite <- Qle_bool_iff; congruence).
    apply Qnot_le_lt in Hn. split; [now apply Qlt_le_weak | apply Qle_refl].
Qed.

Lemma py_max_cases (a b : Q) : py_max a b = a \/ py_max a b = b.
Proof. unfold py_max. destruct (Qle_bool b a); auto. Qed.

Lemma py_min_cases (a b : Q) : py_min a b = a \/ py_min a b = b.
Proof. unfold py_min. destruct (Qle_bool a b); auto. Qed.

(** [max(lo, min(x, hi))] lies in [[lo, hi]] when [lo <= hi]. *)
Lemma clamp_bounds (lo hi x : Q) : (lo <= hi)%Q -> (lo <= clamp lo hi x <= hi)%Q.
Proof.
  intros H. unfold clamp. split; [apply py_max_ge|].
  destruct (py_max_cases lo (py_min x hi)) as [-> | ->]; [exact H|].
  apply py_min_le.
Qed.

(** On [[lo, hi]] the clamp is the identity (up to [==]). *)
Lemma clamp_id (lo hi x : Q) : (lo <= x <= hi)%Q -> clamp lo hi x == x.
Proof.
  intros [H1 H2]. unfold clamp, py_min, py_max.
  destruct (Qle_bool x hi) eqn:E1.
  - destruct (Qle_bool x lo) eqn:E2; [|reflexivity].
    apply Qle_bool_iff in E2. now apply Qle_antisym.
  - assert (~ (x <= hi)%Q) by (rewrite <- Qle_bool_iff; congruence). contradiction.
Qed.

Lemma py_round_Qeq (x y : Q) : x == y -> py_round x = py_round y.
Proof.
  intros H. unfold py_round.
  assert (Hf : Qfloor x = Qfloor y).
  { apply Z.le_antisymm; apply Qfloor_resp_le; rewrite H; apply Qle_refl. }
  rewrite Hf.
  assert (Hr : (x - inject_Z (Qfloor y) == y - inject_Z (Qfloor y))%Q).
  { rewrite H. reflexivity. }
  rewrite (Qcompare_comp _ _ Hr _ _ (Qeq_refl (1 # 2))). reflexivity.
Qed.

Lemma py_round_bounds (x : Q) : (0 <= x <= 100)%Q -> (0 <= py_round x <= 100)%Z.
Proof.
  intros [H0 H100]. unfold py_round.
  set (f := Qfloor x).
  assert (Hf0 : (0 <= f)%Z).
  { change 0%Z with (Qfloor 0). now apply Qfloor_resp_le. }
  assert (Hf100 : (f <= 100)%Z).
  { change 100%Z with (Qfloor 100). now apply Qfloor_resp_le. }
  assert (Hup : (1 # 2 <= x - inject_Z f)%Q -> (f < 100)%Z).
  { intros Hr.
    assert (Hpos : (0 < x - inject_Z f)%Q).
    { apply Qlt_le_trans with (1 # 2); [reflexivity | exact Hr]. }
    apply Qlt_minus_iff in Hpos.
    rewrite Zlt_Qlt. apply Qlt_le_trans with x; [exact Hpos | exact H100]. }
  destruct (Qcompare_spec (x - inject_Z f) (1 # 2)) as [Heq | Hlt | Hgt].
  - assert (f < 100)%Z by (apply Hup; rewrite Heq; apply Qle_refl).
    destruct (Z.even f); lia.
  - lia.
  - assert (f < 100)%Z by (apply Hup; now apply Qlt_le_weak). lia.
Qed.

Lemma get_semantic_match_score_range (llm_present : bool) (call : llm_call) :
  exists s, get_semantic_match_score llm_present call = Ok s /\ (0 <= s <= 50)%Q.
Proof.
  unfold get_semantic_match_score.
  destruct llm_present; simpl; [|eexists; split; [reflexivity | split; discriminate]].
  destruct call as [text | e]; simpl; [|eexists; split; [reflexivity | split; discriminate]].
  destruct (first_digit_run (list_ascii_of_string text)) as [ds|]; simpl;
    eexists; (split; [reflexivity|]); [|split; discriminate].
  set (v := Z.max 0 (Z.min (digits_value ds) 100)).
  assert (Hv : (0 <= v <= 100)%Z) by lia.
  unfold Qle, Qmult; simpl; lia.
Qed.

Lemma bind_Ok {A B} (m : Exc A) (k : A -> Exc B) (b : B) :
  bind m k = Ok b -> exists a, m = Ok a /\ k a = Ok b.
Proof. destruct m as [a|e]; simpl; [eauto | discriminate]. Qed.

Lemma get_llm_analysis_range (json_loads : string -> Exc pyval)
  (llm_present : bool) (call : llm_call) :
  exists a, get_llm_analysis json_loads llm_present call = Ok a /\
            (0 <= an_score a <= 50)%Q.
Proof.
  unfold get_llm_analysis.
  destruct llm_present; simpl; [|eexists; split; [reflexivity | split; discriminate]].
  unfold catch.
  match goal with |- context [match ?b with Ok _ => _ | Raise _ => _ end] =>
    destruct b as [a|e] eqn:Hb end;
    [|eexists; split; [reflexivity | split; discriminate]].
  exists a. split; [reflexivity|].
  repeat match goal with
  | H : bind _ _ = Ok _ |- _ =>
      let x := fresh "x" in let Hx := fresh "Hx" in
      apply bind_Ok in H; destruct H as [x [Hx H]]
  end.
  match goal with H : (if ?c then _ else _) = Ok _ |- _ => destruct c; [discriminate|] end.
  apply bind_Ok in Hb. destruct Hb as [sug [_ Hb]]. injection Hb as <-. simpl.
  apply clamp_bounds. discriminate.
Qed.

(** ** The combined score *)

Definition hard_of (x : Q * list string * list string) : Q :=
  let '(score, _, _) := x in score.

(** Both addends in [[0, 50]], the total their rounded sum (also after
    clamping each addend to [[0, 50]]), in [[0, 100]]. *)
Definition total_ok (r : scored) : Prop :=
  (0 <= sc_hard r <= 50)%Q /\ (0 <= sc_semantic r <= 50)%Q /\
  sc_total r = py_round (sc_hard r + sc_semantic r) /\
  sc_total r = py_round (clamp 0 50 (sc_hard r) + clamp 0 50 (sc_semantic r)) /\
  (0 <= sc_total r <= 100)%Z.

Lemma total_ok_intro (h s : Q) r :
  sc_hard r = h -> sc_semantic r = s -> sc_total r = py_round (h + s) ->
  (0 <= h <= 50)%Q -> (0 <= s <= 50)%Q -> total_ok r.
Proof.
  intros E1 E2 Ht Hh Hs. unfold total_ok. rewrite E1, E2.
  repeat split; try apply Hh; try apply Hs; try exact Ht.
  - rewrite Ht. apply py_round_Qeq.
    rewrite (clamp_id 0 50 h Hh), (clamp_id 0 50 s Hs). reflexivity.
  - rewrite Ht. apply py_round_bounds.
    destruct Hh, Hs. split.
    + change 0%Q with (0 + 0)%Q. now apply Qplus_le_compat.
    + change 100%Q with (50 + 50)%Q. now apply Qplus_le_compat.
  - rewrite Ht. apply py_round_bounds.
    destruct Hh, Hs. split.
    + change 0%Q with (0 + 0)%Q. now apply Qplus_le_compat.
    + change 100%Q with (50 + 50)%Q. now apply Qplus_le_compat.
Qed.

(** [C1]: in both variants, scoring a resume never raises; the total is
    [round(hard_score + semantic_score)] where the hard score is the
    hard-match scorer's and the semantic score the analyzer's, both addends
    lie in [[0, 50]] (so clamping them to [[0, 50]] first changes nothing),
    and the total is an integer in [[0, 100]]. *)
Theorem total_score_combines (llm_present : bool)
  (semantic_call feedback_call analysis_call : llm_call)
  (json_loads : string -> Exc pyval)
  (resume_text jd_text : string) (jd_skills : list string) :
  match score_resume_app llm_present semantic_call feedback_call resume_text jd_text with
  | Ok r =>
      sc_hard r = hard_of (get_hard_match_score resume_text jd_text) /\
      get_semantic_match_score llm_present semantic_call = Ok (sc_semantic r) /\
      total_ok r
  | Raise _ => False
  end /\
  match score_resume_index json_loads llm_present analysis_call resume_text jd_skills with
  | Ok r =>
      sc_hard r = hard_of (get_hard_match_score_list resume_text jd_skills) /\
      (exists a, get_llm_analysis json_loads llm_present analysis_call = Ok a /\
                 sc_semantic r = an_score a) /\
      total_ok r
  | Raise _ => False
  end.
Proof.
  split.
  - unfold score_resume_app.
    pose proof (hard_vocabulary_bounds resume_text jd_text) as Hh.
    destruct (get_hard_match_score resume_text jd_text) as [[h m] mi]. simpl.
    destruct (get_semantic_match_score_range llm_present semantic_call) as [s [Hs Hsb]].
    rewrite Hs. simpl.
    destruct (get_feedback_and_suggestions llm_present feedback_call) as [sug | e] eqn:Hfb.
    + simpl. split; [reflexivity|]. split; [reflexivity|].
      apply (total_ok_intro h s); simpl; auto.
    + exfalso. revert Hfb. unfold get_feedback_and_suggestions.
      destruct llm_present; simpl; [destruct feedback_call|]; discriminate.
  - unfold score_resume_index.
    pose proof (hard_list_bounds resume_text jd_skills) as Hh.
    destruct (get_hard_match_score_list resume_text jd_skills) as [[h m] mi]. simpl.
    destruct (get_llm_analysis_range json_loads llm_present analysis_call) as [a [Ha Hab]].
    rewrite Ha. simpl. split; [reflexivity|].
    split; [exists a; split; reflexivity|].
    apply (total_ok_intro h (an_score a)); simpl; auto.
Qed.

(** ** The semantic analyzer and the response parser *)

(** [C7]: none of the semantic-analysis functions raises. Without an LLM
    client they return a zero score and a fixed "not available" message; a
    failing LLM call gives a zero score and a fixed error message; an
    undecodable response gives score 0 and "Error parsing AI feedback.";
    an exception while reading the decoded response (here a [score] that
    [int()] rejects) gives score 0 and "Error during AI analysis.". *)
Theorem semantic_analyzer_never_raises (json_loads : string -> Exc pyval)
  (llm_present : bool) (semantic_call feedback_call analysis_call : llm_call)
  (e : exn) (text : string) :
  (exists s, get_semantic_match_score llm_present semantic_call = Ok s) /\
  (exists t, get_feedback_and_suggestions llm_present feedback_call = Ok t) /\
  (exists a, get_llm_analysis json_loads llm_present analysis_call = Ok a) /\
  get_semantic_match_score false semantic_call = Ok 0%Q /\
  get_feedback_and_suggestions false feedback_call
    = Ok "LLM not available. Please set the GOOGLE_API_KEY." /\
  get_llm_analysis json_loads false analysis_call
    = Ok {| an_score := 0; an_suggestions := PStr "LLM not available." |} /\
  get_semantic_match_score true (Raise e) = Ok 0%Q /\
  get_feedback_and_suggestions true (Raise e)
    = Ok "Could not generate suggestions due to an error." /\
  get_llm_analysis json_loads true (Raise e)
    = Ok {| an_score := 0; an_suggestions := PStr "Error during AI analysis." |} /\
  get_llm_analysis (fun _ => Raise JSONDecodeError) true (Ok text)
    = Ok {| an_score := 0; an_suggestions := PStr "Error parsing AI feedback." |} /\
  get_llm_analysis (fun _ => Ok (PDict [("score", PStr "high")])) true
      (Ok "{score: high}")
    = Ok {| an_score := 0; an_suggestions := PStr "Error during AI analysis." |}.
Proof.
  split; [destruct (get_semantic_match_score_range llm_present semantic_call)
            as [s [Hs _]]; eauto|].
  split; [unfold get_feedback_and_suggestions; destruct llm_present;
          [destruct feedback_call|]; simpl; eexists; reflexivity|].
  split; [destruct (get_llm_analysis_range json_loads llm_present analysis_call)
            as [a [Ha _]]; eauto|].
  do 6 (split; [reflexivity|]).
  split; [|vm_compute; reflexivity].
  unfold get_llm_analysis, parse_llm_json_response. simpl.
  destruct (json_search (list_ascii_of_string text)); reflexivity.
Qed.

(** [C8] (code defect): on a response without a JSON-shaped part the parser
    returns [default_value or {}]: for the falsy default [[]] passed by
    [extract_jd_skills] that is [{}], not the call site's default [[]]. And
    it does raise: an exception of [json.loads] other than
    [JSONDecodeError] (such as [RecursionError] on deeply nested brackets)
    escapes the [except json.JSONDecodeError]. *)
Theorem parse_llm_json_empty_list_default (json_loads : string -> Exc pyval)
  (text : string) (m : list ascii) (e : exn)
  (Hm : json_search (list_ascii_of_string text) = Some m)
  (He : json_loads (string_of_list_ascii m) = Raise e)
  (Hne : e <> JSONDecodeError) :
  parse_llm_json_response json_loads "I cannot answer that." (Some (PList []))
    = Ok (PDict []) /\
  PDict [] <> PList [] /\
  parse_llm_json_response json_loads text (Some (PList [])) = Raise e.
Proof.
  split; [reflexivity|]. split; [discriminate|].
  unfold parse_llm_json_response. rewrite Hm, He.
  destruct e; try reflexivity. contradiction Hne. reflexivity.
Qed.

(** The two defects of [C8] on concrete replies: a refusal with the default
    [[]], and 1000 nested brackets, on which [json.loads] exceeds Python's
    recursion limit and raises [RecursionError]. *)
Lemma parse_llm_json_empty_list_default_witness :
  let deep := (fix nest (k : nat) : string :=
                 match k with O => "" | S k' => String "["%char (nest k' ++ "]") end) 1000%nat in
  let loads := fun s : string =>
    if String.eqb s deep then @Raise pyval RecursionError else @Raise pyval JSONDecodeError in
  parse_llm_json_response loads "I cannot answer that." (Some (PList []))
    = Ok (PDict []) /\
  PDict [] <> PList [] /\
  parse_llm_json_response loads ("Skills: " ++ deep) (Some (PList [])) = Raise RecursionError.
Proof.
  intros deep loads.
  apply (parse_llm_json_empty_list_default loads ("Skills: " ++ deep)
           (list_ascii_of_string deep) RecursionError);
    [vm_compute; reflexivity | vm_compute; reflexivity | discriminate].
Defined.

(** [C5] (code defect): [app.py] reads the first run of digits and ignores a
    minus sign, so the out-of-range raw value [-20] becomes [20] and scores
    [10], whereas clamping [-20] to [[0, 100]] and rescaling gives [0]. The
    score still lies in [[0, 50]]. *)
Theorem semantic_score_negative_raw :
  get_semantic_match_score true (Ok "-20") = Ok (inject_Z 20 * (1 # 2))%Q /\
  (inject_Z 20 * (1 # 2) == 10)%Q /\
  (clamp 0 100 (-20) / 100 * 50 == 0)%Q.
Proof. split; [reflexivity | split; reflexivity]. Qed.

(** [C4] (code defect): [index.py] tests each skill with
    [\b + re.escape(skill) + \b]; a skill that ends in a non-word character,
    such as "C++", is never found, not even when the resume lists it
    literally: the [\b] after "++" needs a word character next. *)
Theorem hard_match_list_cpp :
  search_word (lower "C++") (lower "Skills: C++, Java") = false /\
  (let '(score, matched, missing) :=
     get_hard_match_score_list "Skills: C++, Java" ["C++"; "Java"] in
   score == 25 /\ matched = ["Java"] /\ missing = ["C++"])%Q.
Proof. vm_compute. repeat split; reflexivity. Qed.

(** ** Batch processing *)

(** * Further properties of the code *)

(** ** [is_too_large] *)

(** A file is too large exactly when it has more than 200 MiB
    (209715200 bytes); 200 MiB itself is accepted. *)
Theorem is_too_large_iff (file_bytes : list Byte.byte) :
  is_too_large file_bytes = true <-> (209715200 < Z.of_nat (List.length file_bytes))%Z.
Proof.
  unfold is_too_large, Qle_bool. simpl.
  rewrite negb_true_iff, Z.leb_gt. lia.
Qed.

(** ** [format_skills_list] *)

Lemma split_comma_space_single (x : string) :
  no_comma x = true -> split_comma_space x = [x].
Proof.
  induction x as [|c x IH]; simpl; [reflexivity|].
  unfold no_comma. simpl. rewrite andb_true_iff, negb_true_iff.
  intros [Hc Hx]. rewrite Hc. simpl. rewrite IH by exact Hx. reflexivity.
Qed.

Lemma split_comma_space_app (x r : string) :
  no_comma x = true -> split_comma_space (x ++ ", " ++ r) = x :: split_comma_space r.
Proof.
  induction x as [|c x IH]; simpl; [reflexivity|].
  unfold no_comma. simpl. rewrite andb_true_iff, negb_true_iff.
  intros [Hc Hx]. rewrite Hc. simpl in IH |- *. rewrite IH; [reflexivity | exact Hx].
Qed.

Lemma split_join (l : list string) :
  l <> [] -> Forall (fun x => no_comma x = true) l ->
  split_comma_space (join ", " l) = l.
Proof.
  induction l as [|x l IH]; intros Hne Hall; [contradiction|].
  inversion Hall as [|? ? Hx Hl]; subst.
  destruct l as [|y l].
  - simpl. now apply split_comma_space_single.
  - change (join ", " (x :: y :: l)) with (x ++ ", " ++ join ", " (y :: l)).
    rewrite split_comma_space_app by exact Hx. rewrite IH; [reflexivity | discriminate | exact Hl].
Qed.

Lemma parse_format_skills_list (l : list string) :
  Forall (fun x => no_comma x = true) l -> l <> ["None"] ->
  parse_skills_formatted (format_skills_list l) = l.
Proof.
  intros Hcomma Hnone.
  unfold parse_skills_formatted, format_skills_list.
  destruct l as [|x l']; [reflexivity|].
  set (l := x :: l') in *.
  assert (Hs : split_comma_space (join ", " l) = l) by (apply split_join; [discriminate | exact Hcomma]).
  destruct (String.eqb_spec (join ", " l) "None") as [E|E]; [|exact Hs].
  exfalso. apply Hnone. rewrite <- Hs, E. reflexivity.
Qed.

(** [format_skills_list] loses nothing: a list of skills without commas,
    other than the one-element list ["None"], is read back from its
    formatted string; the empty list is formatted as "None". *)
Theorem format_skills_list_roundtrip (l : list string)
  (Hcomma : Forall (fun x => no_comma x = true) l) (Hnone : l <> ["None"]) :
  parse_skills_formatted (format_skills_list l) = l.
Proof. exact (parse_format_skills_list l Hcomma Hnone). Qed.

Lemma format_skills_list_roundtrip_witness :
  parse_skills_formatted (format_skills_list ["python"; "sql"]) = ["python"; "sql"].
Proof.
  apply format_skills_list_roundtrip; [repeat constructor | discriminate].
Defined.

Lemma hard_vocab_members (resume_text jd_text w : string) :
  let '(_, matched, missing) := get_hard_match_score resume_text jd_text in
  (In w matched \/ In w missing) -> In w KNOWN_SKILLS.
Proof.
  unfold get_hard_match_score.
  destruct (skill_set jd_text) as [|j js] eqn:Hj; [simpl; tauto|].
  rewrite <- Hj. rewrite !In_sorted, !filter_In.
  intros [[H _] | [H _]]; apply In_skill_set in H; tauto.
Qed.

(** In [app.py] the formatted skill strings of a result
    ([matchedSkillsFormatted], [missingSkillsFormatted]) determine the
    matched and missing lists: both are read back exactly. *)
Theorem app_formatted_skills_roundtrip (resume_text jd_text : string) :
  let '(_, matched, missing) := get_hard_match_score resume_text jd_text in
  parse_skills_formatted (format_skills_list matched) = matched /\
  parse_skills_formatted (format_skills_list missing) = missing.
Proof.
  pose proof (fun w => hard_vocab_members resume_text jd_text w) as Hm.
  destruct (get_hard_match_score resume_text jd_text) as [[s m] mi].
  assert (Hk : Forall (fun x => no_comma x = true) KNOWN_SKILLS) by (repeat constructor).
  assert (Hn : ~ In "None" KNOWN_SKILLS) by (simpl; intuition discriminate).
  rewrite Forall_forall in Hk.
  split; apply parse_format_skills_list.
  - apply Forall_forall. intros x Hx. apply Hk, (Hm x). tauto.
  - intros E. apply Hn, (Hm "None"). rewrite E. simpl. tauto.
  - apply Forall_forall. intros x Hx. apply Hk, (Hm x). tauto.
  - intros E. apply Hn, (Hm "None"). rewrite E. simpl. tauto.
Qed.

(** ** The hard-match scores at their extremes *)

Lemma ratio50_zero (n d : nat) : (0 < d)%nat -> (ratio50 n d == 0 <-> n = 0%nat)%Q.
Proof.
  intros Hd. destruct d as [|d]; [lia|].
  unfold ratio50, Qeq, Qdiv, Qmult, Qinv. simpl.
  split; intros H; [lia | subst; reflexivity].
Qed.

Lemma ratio50_full (n d : nat) : (0 < d)%nat -> (ratio50 n d == 50 <-> n = d)%Q.
Proof.
  intros Hd. destruct d as [|d]; [lia|].
  unfold ratio50, Qeq, Qdiv, Qmult, Qinv. simpl.
  rewrite ?Zpos_P_of_succ_nat. split; intros H; lia.
Qed.

Lemma sorted_nil_iff (l : list string) : sorted l = [] <-> List.length l = 0%nat.
Proof.
  rewrite <- (Permutation_length (sorted_perm l)). symmetry. apply length_zero_iff_nil.
Qed.

Lemma length_inter (a b : list string) : NoDup a -> NoDup b ->
  List.length (filter (fun w => memb w b) a) = List.length (filter (fun w => memb w a) b).
Proof.
  intros Ha Hb. apply Nat.le_antisymm; apply NoDup_incl_length;
    try (apply NoDup_filter; assumption);
    intros w Hw; apply filter_In in Hw; apply filter_In; rewrite memb_In in *; tauto.
Qed.

(** In both variants the hard score is 0 exactly when no skill matched, and
    50 exactly when no required skill is missing and some skill is
    required. *)
Theorem hard_score_extremes (resume_text jd_text : string) (required_skills : list string) :
  (let '(score, matched, missing) := get_hard_match_score resume_text jd_text in
   (score == 0 <-> matched = []) /\
   (score == 50 <-> missing = [] /\ skill_set jd_text <> []))%Q /\
  (let '(score, matched, missing) := get_hard_match_score_list resume_text required_skills in
   (score == 0 <-> matched = []) /\
   (score == 50 <-> missing = [] /\ required_skills <> []))%Q.
Proof.
  split.
  - unfold get_hard_match_score.
    destruct (skill_set jd_text) as [|j js] eqn:Hj.
    { split; split; intros H; try reflexivity; try (destruct H; congruence); discriminate H. }
    rewrite <- Hj.
    assert (Hd : (0 < List.length (skill_set jd_text))%nat) by (rewrite Hj; simpl; lia).
    rewrite ratio50_zero, ratio50_full by exact Hd.
    rewrite !sorted_nil_iff.
    pose proof (length_inter (skill_set resume_text) (skill_set jd_text)
                  (NoDup_skill_set _) (NoDup_skill_set _)) as Hi.
    pose proof (filter_length (fun w => memb w (skill_set resume_text)) (skill_set jd_text)) as Hl.
    split; [reflexivity|].
    split; [intros H; split; [lia | congruence] | intros [H _]; lia].
  - unfold get_hard_match_score_list.
    destruct required_skills as [|r rs] eqn:Hr.
    { split; split; intros H; try reflexivity; try (destruct H; congruence); discriminate H. }
    rewrite <- Hr.
    assert (Hd : (0 < List.length required_skills)%nat) by (rewrite Hr; simpl; lia).
    set (matched := filter (fun skill => search_word (lower skill) (lower resume_text))
                      required_skills).
    assert (Hm : filter (fun w => memb w matched) required_skills = matched).
    { apply filter_ext_in. intros w Hw. unfold matched.
      destruct (search_word (lower w) (lower resume_text)) eqn:E.
      - apply memb_In, filter_In. tauto.
      - apply memb_false_In. rewrite filter_In. intros [_ H]. congruence. }
    pose proof (filter_length (fun w => memb w matched) required_skills) as Hl.
    rewrite Hm in Hl.
    rewrite ratio50_zero, ratio50_full by exact Hd.
    split; [apply length_zero_iff_nil|].
    split.
    + intros H. split; [|rewrite Hr; discriminate].
      apply length_zero_iff_nil. lia.
    + intros [H _]. apply (f_equal (@List.length string)) in H. simpl in H. lia.
Qed.

(** ** Case and added text *)

Lemma lower_char_idem (c : ascii) : lower_char (lower_char c) = lower_char c.
Proof.
  destruct c as [[] [] [] [] [] [] [] []]; reflexivity.
Qed.

Lemma lower_idem (s : string) : lower (lower s) = lower s.
Proof.
  induction s as [|c s IH]; simpl; [reflexivity|]. now rewrite lower_char_idem, IH.
Qed.

(** Both scorers ignore the case of the resume (and [app.py] that of the job
    description): lower-casing the texts first changes no result. *)
Theorem hard_match_case_insensitive (resume_text jd_text : string)
  (required_skills : list string) :
  get_hard_match_score (lower resume_text) (lower jd_text)
    = get_hard_match_score resume_text jd_text /\
  get_hard_match_score_list (lower resume_text) required_skills
    = get_hard_match_score_list resume_text required_skills.
Proof.
  unfold get_hard_match_score, get_hard_match_score_list, skill_set, words_all.
  rewrite !lower_idem. split; reflexivity.
Qed.

Lemma lower_app (s t : string) : lower (s ++ t) = lower s ++ lower t.
Proof. induction s as [|c s IH]; simpl; [reflexivity | now rewrite IH]. Qed.

Lemma findall_words_aux_app_space (s t : string) : forall cur,
  findall_words_aux (s ++ String " " t) cur = (findall_words_aux s cur ++ findall_words t)%list.
Proof.
  induction s as [|c s IH]; intros cur; simpl.
  - destruct cur; reflexivity.
  - destruct (is_word c); [apply IH|].
    destruct cur; [apply IH | simpl; f_equal; apply IH].
Qed.

Lemma skill_set_app_space (r e w : string) :
  In w (skill_set r) -> In w (skill_set (r ++ String " " e)).
Proof.
  rewrite !In_skill_set, lower_app. simpl.
  unfold findall_words. rewrite findall_words_aux_app_space, in_app_iff. tauto.
Qed.

Lemma ratio50_mono (n n' d : nat) : (n <= n')%nat -> (ratio50 n d <= ratio50 n' d)%Q.
Proof.
  intros H. unfold ratio50, Qdiv.
  apply Qmult_le_compat_r; [|discriminate].
  apply Qmult_le_compat_r.
  - rewrite <- Zle_Qle. lia.
  - apply Qinv_le_0_compat. change 0%Q with (inject_Z 0). rewrite <- Zle_Qle. lia.
Qed.

(** In [app.py], adding text to a resume (after a space) never lowers its
    hard score: every matched skill stays matched and no skill becomes
    missing. *)
Theorem hard_match_monotone (resume_text extra jd_text : string) :
  let '(score, matched, missing) := get_hard_match_score resume_text jd_text in
  let '(score', matched', missing') :=
    get_hard_match_score (resume_text ++ String " " extra) jd_text in
  (score <= score')%Q /\ incl matched matched' /\ incl missing' missing.
Proof.
  unfold get_hard_match_score.
  destruct (skill_set jd_text) as [|j js] eqn:Hj.
  { repeat split; [apply Qle_refl | intros w [] | intros w []]. }
  rewrite <- Hj.
  set (r' := resume_text ++ String " " extra).
  pose proof (skill_set_app_space resume_text extra) as Hsub. fold r' in Hsub.
  repeat split.
  - apply ratio50_mono, NoDup_incl_length.
    + apply NoDup_filter, NoDup_skill_set.
    + intros w Hw. apply filter_In in Hw. apply filter_In. destruct Hw. auto.
  - intros w Hw. apply In_sorted, filter_In in Hw. apply In_sorted, filter_In.
    destruct Hw. auto.
  - intros w Hw. apply In_sorted, filter_In in Hw. apply In_sorted, filter_In.
    destruct Hw as [H1 H2]. split; [exact H1|].
    rewrite negb_true_iff, memb_false_In in *. auto.
Qed.

(** ** [candidate_name] *)

Lemma final_newline (l : list ascii) :
  match l with ["010"%char] => true | _ => false end = true -> l = ["010"%char].
Proof.
  destruct l as [|c [|d t]]; [discriminate | |];
    destruct c as [[] [] [] [] [] [] [] []]; simpl; congruence.
Qed.

Lemma name_dfa_chars (l : list ascii) : forall st words,
  name_dfa st words l = true -> forallb letter_or_space l = true.
Proof.
  induction l as [|c t IH]; intros st words H; [reflexivity|].
  simpl in H. simpl. apply andb_true_iff.
  apply orb_true_iff in H. destruct H as [H | H].
  - apply andb_true_iff in H. destruct H as [_ H].
    apply (final_newline (c :: t)) in H. injection H as -> ->. split; reflexivity.
  - unfold letter_or_space.
    destruct st as [|[|[|st]]];
      repeat match goal with
      | H : (if ?b then _ else _) = true |- _ => destruct b eqn:?
      end; try discriminate;
      (split; [rewrite ?orb_true_iff; tauto | eapply IH; exact H]).
Qed.

Lemma name_match_first (c : ascii) (t : list ascii) :
  name_match (string_of_list_ascii (c :: t)) = true -> is_upper c = true.
Proof.
  unfold name_match. rewrite list_ascii_of_string_of_list_ascii. simpl.
  destruct (is_upper c); [reflexivity | discriminate].
Qed.

(** The candidate name of [app.py] is "N/A" or one of the first five lines of
    the stripped resume, itself stripped, that matches the name pattern:
    it starts with a capital and has only letters and whitespace (so it is
    never "N/A" itself). *)
Theorem candidate_name_shape (resume_text : string) :
  let n := candidate_name resume_text in
  n = "N/A" \/
  (In n (map py_strip (firstn 5 (splitlines (py_strip resume_text)))) /\
   name_match n = true /\
   forallb letter_or_space (list_ascii_of_string n) = true /\
   exists c rest, n = String c rest /\ is_upper c = true).
Proof.
  unfold candidate_name.
  destruct (find _ _) as [line|] eqn:Hf; [right | left; reflexivity].
  apply find_some in Hf. destruct Hf as [Hin Hm].
  split; [apply in_map, Hin|]. split; [exact Hm|]. split.
  - unfold name_match in Hm. eapply name_dfa_chars. exact Hm.
  - destruct (py_strip line) as [|c rest] eqn:E; [discriminate Hm|].
    exists c, rest. split; [reflexivity|].
    apply (name_match_first c (list_ascii_of_string rest)).
    change (c :: list_ascii_of_string rest) with (list_ascii_of_string (String c rest)).
    rewrite string_of_list_ascii_of_string. exact Hm.
Qed.

(** ** The request loops *)

Lemma get_feedback_and_suggestions_Ok (llm_present : bool) (call : llm_call) :
  exists s, get_feedback_and_suggestions llm_present call = Ok s.
Proof.
  unfold get_feedback_and_suggestions.
  destruct llm_present; simpl; [destruct call|]; eexists; reflexivity.
Qed.

Lemma score_resume_app_spec (llm_present : bool) (semantic_call feedback_call : llm_call)
  (resume_text jd_text : string) :
  exists s,
    score_resume_app llm_present semantic_call feedback_call resume_text jd_text = Ok s /\
    total_ok s /\ sc_verdict s = verdict (sc_total s) /\
    get_hard_match_score resume_text jd_text = (sc_hard s, sc_matched s, sc_missing s) /\
    get_semantic_match_score llm_present semantic_call = Ok (sc_semantic s) /\
    (exists sug, get_feedback_and_suggestions llm_present feedback_call = Ok sug /\
                 sc_suggestions s = PStr sug).
Proof.
  unfold score_resume_app.
  pose proof (hard_vocabulary_bounds resume_text jd_text) as Hh.
  destruct (get_hard_match_score resume_text jd_text) as [[h m] mi].
  destruct (get_semantic_match_score_range llm_present semantic_call) as [s [Hs Hsb]].
  destruct (get_feedback_and_suggestions_Ok llm_present feedback_call) as [sug Hf].
  rewrite Hs. simpl. rewrite Hf. simpl. eexists. split; [reflexivity|].
  split; [apply (total_ok_intro h s); simpl; auto|].
  simpl. split; [reflexivity|]. split; [reflexivity|]. split; [reflexivity|].
  exists sug. split; reflexivity.
Qed.

Lemma score_resume_index_spec (json_loads : string -> Exc pyval)
  (llm_present : bool) (analysis_call : llm_call)
  (resume_text : string) (jd_skills : list string) :
  exists s,
    score_resume_index json_loads llm_present analysis_call resume_text jd_skills = Ok s /\
    total_ok s /\ sc_verdict s = verdict (sc_total s) /\
    get_hard_match_score_list resume_text jd_skills = (sc_hard s, sc_matched s, sc_missing s) /\
    exists a, get_llm_analysis json_loads llm_present analysis_call = Ok a /\
              sc_semantic s = an_score a /\ sc_suggestions s = an_suggestions a.
Proof.
  unfold score_resume_index.
  pose proof (hard_list_bounds resume_text jd_skills) as Hh.
  destruct (get_hard_match_score_list resume_text jd_skills) as [[h m] mi].
  destruct (get_llm_analysis_range json_loads llm_present analysis_call) as [a [Ha Hab]].
  rewrite Ha. simpl. eexists. split; [reflexivity|].
  split; [apply (total_ok_intro h (an_score a)); simpl; auto|].
  simpl. split; [reflexivity|]. split; [reflexivity|].
  exists a. split; [reflexivity|]. split; reflexivity.
Qed.

Section Loops.

Variable b64decode : string -> option (list Byte.byte).
Variable extract_text_from_pdf extract_text_from_docx : list Byte.byte -> string.
Variable candidate_name_of candidate_email_of : string -> string.
Variable llm_present : bool.
Variable semantic_call feedback_call analysis_call : string -> llm_call.
Variable json_loads : string -> Exc pyval.

Let text_of := extract_resume_text extract_text_from_pdf extract_text_from_docx.
Let analyse_app := analyse_entry_app b64decode extract_text_from_pdf extract_text_from_docx
  candidate_name_of candidate_email_of llm_present semantic_call feedback_call.
Let process_app := process_resumes_app b64decode extract_text_from_pdf extract_text_from_docx
  candidate_name_of candidate_email_of llm_present semantic_call feedback_call.
Let analyse_index := analyse_entry_index b64decode extract_text_from_pdf
  extract_text_from_docx candidate_email_of llm_present analysis_call json_loads.
Let process_index := process_resumes_index b64decode extract_text_from_pdf
  extract_text_from_docx candidate_email_of llm_present analysis_call json_loads.

Lemma analyse_entry_app_spec (jd_text : string) (e : entry) :
  match analyse_app jd_text e with
  | Ok r =>
      entry_error b64decode e = None /\
      exists file_bytes s,
        decode_content b64decode e = Ok file_bytes /\
        fileName e = Some (ra_resumeName r) /\
        score_resume_app llm_present
          (semantic_call (text_of (ra_resumeName r) file_bytes))
          (feedback_call (text_of (ra_resumeName r) file_bytes))
          (text_of (ra_resumeName r) file_bytes) jd_text = Ok s /\
        ra_score r = sc_total s /\ ra_verdict r = sc_verdict s /\
        ra_matchedSkills r = sc_matched s /\ ra_missingSkills r = sc_missing s /\
        ra_suggestions r = sc_suggestions s
  | Raise ex => entry_error b64decode e = Some ex
  end.
Proof.
  unfold analyse_app, analyse_entry_app, entry_error.
  destruct (decode_content b64decode e) as [fb|ex]; simpl; [|reflexivity].
  destruct (fileName e) as [n|] eqn:En; simpl; [|reflexivity].
  destruct (score_resume_app_spec llm_present
              (semantic_call (text_of n fb)) (feedback_call (text_of n fb))
              (text_of n fb) jd_text) as [s [Hs _]].
  unfold text_of in Hs. rewrite Hs. simpl.
  split; [reflexivity|]. exists fb, s.
  repeat split; assumption || reflexivity.
Qed.

Lemma analyse_entry_index_spec (jd_skills : list string) (e : entry) :
  match analyse_index jd_skills e with
  | Ok o =>
      entry_error b64decode e = None /\
      match o with
      | None => index_kept b64decode extract_text_from_pdf extract_text_from_docx e = []
      | Some r =>
          index_kept b64decode extract_text_from_pdf extract_text_from_docx e
            = [ri_candidateName r] /\
          exists file_bytes s,
            decode_content b64decode e = Ok file_bytes /\
            score_resume_index json_loads llm_present
              (analysis_call (text_of (ri_candidateName r) file_bytes))
              (text_of (ri_candidateName r) file_bytes) jd_skills = Ok s /\
            ri_score r = sc_total s /\ ri_verdict r = sc_verdict s /\
            ri_missingSkills r = sc_missing s /\ ri_suggestions r = sc_suggestions s
      end
  | Raise ex => entry_error b64decode e = Some ex
  end.
Proof.
  unfold analyse_index, analyse_entry_index, entry_error, index_kept.
  destruct (decode_content b64decode e) as [fb|ex]; simpl; [|reflexivity].
  destruct (fileName e) as [n|] eqn:En; simpl; [|reflexivity].
  fold (text_of n fb).
  destruct (String.eqb (text_of n fb) "") eqn:Et; simpl; [split; reflexivity|].
  destruct (score_resume_index_spec json_loads llm_present
              (analysis_call (text_of n fb)) (text_of n fb) jd_skills) as [s [Hs _]].
  rewrite Hs. simpl.
  split; [reflexivity|]. split; [reflexivity|]. exists fb, s.
  repeat split; assumption || reflexivity.
Qed.

Lemma process_app_Forall (P : result_app -> Prop) (jd_text : string) (resumes : list entry) :
  (forall e r, analyse_app jd_text e = Ok r -> P r) ->
  match process_app jd_text resumes with
  | Ok results => Forall P results
  | Raise _ => True
  end.
Proof.
  intros HP. induction resumes as [|e t IH]; simpl; [constructor|].
  fold analyse_app process_app.
  destruct (analyse_app jd_text e) as [r|ex] eqn:Er; simpl; [|exact I].
  destruct (process_app jd_text t) as [rs|ex]; simpl; [|exact I].
  constructor; [eapply HP; exact Er | exact IH].
Qed.

Lemma process_index_Forall (P : result_index -> Prop) (jd_skills : list string)
  (resumes : list entry) :
  (forall e r, analyse_index jd_skills e = Ok (Some r) -> P r) ->
  match process_index jd_skills resumes with
  | Ok results => Forall P results
  | Raise _ => True
  end.
Proof.
  intros HP. induction resumes as [|e t IH]; simpl; [constructor|].
  fold analyse_index process_index.
  destruct (analyse_index jd_skills e) as [o|ex] eqn:Eo; simpl; [|exact I].
  destruct (process_index jd_skills t) as [rs|ex]; simpl; [|exact I].
  destruct o as [r|]; [constructor; [eapply HP; exact Eo | exact IH] | exact IH].
Qed.

End Loops.

Lemma score_resume_app_Ok (llm_present : bool) (semantic_call feedback_call : llm_call)
  (resume_text jd_text : string) (s : scored) :
  score_resume_app llm_present semantic_call feedback_call resume_text jd_text = Ok s ->
  total_ok s /\ sc_verdict s = verdict (sc_total s) /\
  get_hard_match_score resume_text jd_text = (sc_hard s, sc_matched s, sc_missing s) /\
  get_semantic_match_score llm_present semantic_call = Ok (sc_semantic s) /\
  (exists sug, get_feedback_and_suggestions llm_present feedback_call = Ok sug /\
               sc_suggestions s = PStr sug).
Proof.
  intros H.
  destruct (score_resume_app_spec llm_present semantic_call feedback_call resume_text jd_text)
    as [s' [H' P]].
  rewrite H in H'. injection H' as <-. exact P.
Qed.

Lemma score_resume_index_Ok (json_loads : string -> Exc pyval)
  (llm_present : bool) (analysis_call : llm_call)
  (resume_text : string) (jd_skills : list string) (s : scored) :
  score_resume_index json_loads llm_present analysis_call resume_text jd_skills = Ok s ->
  total_ok s /\ sc_verdict s = verdict (sc_total s) /\
  get_hard_match_score_list resume_text jd_skills = (sc_hard s, sc_matched s, sc_missing s) /\
  exists a, get_llm_analysis json_loads llm_present analysis_call = Ok a /\
            sc_semantic s = an_score a /\ sc_suggestions s = an_suggestions a.
Proof.
  intros H.
  destruct (score_resume_index_spec json_loads llm_present analysis_call resume_text jd_skills)
    as [s' [H' P]].
  rewrite H in H'. injection H' as <-. exact P.
Qed.

Lemma py_round_le (x : Q) (k : Z) : (x <= inject_Z k)%Q -> (py_round x <= k)%Z.
Proof.
  intros Hx. unfold py_round.
  set (f := Qfloor x).
  assert (Hfk : (f <= k)%Z).
  { rewrite <- (Qfloor_Z k). now apply Qfloor_resp_le. }
  assert (Hup : (1 # 2 <= x - inject_Z f)%Q -> (f < k)%Z).
  { intros Hr. rewrite Zlt_Qlt.
    assert (Hpos : (0 < x - inject_Z f)%Q).
    { apply Qlt_le_trans with (1 # 2); [reflexivity | exact Hr]. }
    apply Qlt_minus_iff in Hpos.
    apply Qlt_le_trans with x; [exact Hpos | exact Hx]. }
  destruct (Qcompare_spec (x - inject_Z f) (1 # 2)) as [Heq | Hlt | Hgt].
  - assert (f < k)%Z by (apply Hup; rewrite Heq; apply Qle_refl).
    destruct (Z.even f); lia.
  - exact Hfk.
  - assert (f < k)%Z by (apply Hup; now apply Qlt_le_weak). lia.
Qed.

Lemma verdict_low_score (t : Z) : (t <= 50)%Z -> verdict t <> "High".
Proof.
  intros Ht. unfold verdict.
  destruct (80 <=? t)%Z eqn:E; [apply Z.leb_le in E; lia|].
  destruct (50 <=? t)%Z; discriminate.
Qed.

(** A total with one addend zero is at most 50. *)
Lemma total_le_50 (s : scored) :
  total_ok s -> (sc_hard s == 0 \/ sc_semantic s == 0)%Q -> (sc_total s <= 50)%Z.
Proof.
  intros [Hh [Hs [Ht _]]] Hz. rewrite Ht. apply py_round_le.
  destruct Hz as [Hz|Hz]; rewrite Hz; [rewrite Qplus_0_l; apply Hs | rewrite Qplus_0_r; apply Hh].
Qed.

Section LoopProperties.

Variable b64decode : string -> option (list Byte.byte).
Variable extract_text_from_pdf extract_text_from_docx : list Byte.byte -> string.
Variable candidate_name_of candidate_email_of : string -> string.
Variable llm_present : bool.
Variable semantic_call feedback_call analysis_call : string -> llm_call.
Variable json_loads : string -> Exc pyval.


(** [app.py] appends one result per entry, in order: a successful batch
    names every entry's file, and each result's verdict is the verdict of
    its score, an integer in [[0, 100]]. *)
Theorem app_results_per_entry (jd_text : string) (resumes : list entry) :
  match process_resumes_app b64decode extract_text_from_pdf extract_text_from_docx
          candidate_name_of candidate_email_of llm_present semantic_call feedback_call
          jd_text resumes with
  | Ok results =>
      map (fun r => Some (ra_resumeName r)) results = map fileName resumes /\
      Forall (fun r => ra_verdict r = verdict (ra_score r) /\ (0 <= ra_score r <= 100)%Z)
        results
  | Raise _ => True
  end.
Proof.
  pose proof (process_app_Forall b64decode extract_text_from_pdf extract_text_from_docx
    candidate_name_of candidate_email_of llm_present semantic_call feedback_call
    (fun r => ra_verdict r = verdict (ra_score r) /\ (0 <= ra_score r <= 100)%Z)
    jd_text resumes) as HF.
  assert (HN : match process_resumes_app b64decode extract_text_from_pdf
                 extract_text_from_docx candidate_name_of candidate_email_of llm_present
                 semantic_call feedback_call jd_text resumes with
               | Ok results => map (fun r => Some (ra_resumeName r)) results = map fileName resumes
               | Raise _ => True
               end).
  { clear HF. induction resumes as [|e t IH]; [reflexivity|].
    pose proof (analyse_entry_app_spec b64decode extract_text_from_pdf
      extract_text_from_docx candidate_name_of candidate_email_of llm_present
      semantic_call feedback_call jd_text e) as He.
    simpl. destruct (analyse_entry_app _ _ _ _ _ _ _ _ jd_text e) as [r|ex]; simpl; [|exact I].
    destruct He as [_ [fb [s [_ [Hn _]]]]].
    destruct (process_resumes_app _ _ _ _ _ _ _ _ jd_text t); simpl; [|exact I].
    rewrite Hn, IH. reflexivity. }
  destruct (process_resumes_app _ _ _ _ _ _ _ _ jd_text resumes); [|exact I].
  split; [exact HN|]. apply HF.
  intros e r Er.
  pose proof (analyse_entry_app_spec b64decode extract_text_from_pdf
    extract_text_from_docx candidate_name_of candidate_email_of llm_present
    semantic_call feedback_call jd_text e) as He.
  rewrite Er in He. destruct He as [_ [fb [s [_ [_ [Hs [Hsc [Hv _]]]]]]]].
  apply score_resume_app_Ok in Hs. destruct Hs as [Hok [Hv' _]].
  rewrite Hv, Hsc, Hv'. split; [reflexivity | apply Hok].
Qed.

(** [index.py] keeps, in order, exactly the entries whose extracted text is
    not empty, each result named by its file name; each result's verdict is
    the verdict of its score, an integer in [[0, 100]]. *)
Theorem index_results_kept (jd_skills : list string) (resumes : list entry) :
  match process_resumes_index b64decode extract_text_from_pdf extract_text_from_docx
          candidate_email_of llm_present analysis_call json_loads jd_skills resumes with
  | Ok results =>
      map ri_candidateName results
        = flat_map (index_kept b64decode extract_text_from_pdf extract_text_from_docx)
            resumes /\
      Forall (fun r => ri_verdict r = verdict (ri_score r) /\ (0 <= ri_score r <= 100)%Z)
        results
  | Raise _ => True
  end.
Proof.
  pose proof (process_index_Forall b64decode extract_text_from_pdf extract_text_from_docx
    candidate_email_of llm_present analysis_call json_loads
    (fun r => ri_verdict r = verdict (ri_score r) /\ (0 <= ri_score r <= 100)%Z)
    jd_skills resumes) as HF.
  assert (HN : match process_resumes_index b64decode extract_text_from_pdf
                 extract_text_from_docx candidate_email_of llm_present analysis_call
                 json_loads jd_skills resumes with
               | Ok results =>
                   map ri_candidateName results
                   = flat_map (index_kept b64decode extract_text_from_pdf
                                 extract_text_from_docx) resumes
               | Raise _ => True
               end).
  { clear HF. induction resumes as [|e t IH]; [reflexivity|].
    pose proof (analyse_entry_index_spec b64decode extract_text_from_pdf
      extract_text_from_docx candidate_email_of llm_present analysis_call json_loads
      jd_skills e) as He.
    simpl. destruct (analyse_entry_index _ _ _ _ _ _ _ jd_skills e) as [o|ex]; simpl; [|exact I].
    destruct He as [_ He].
    destruct (process_resumes_index _ _ _ _ _ _ _ jd_skills t); simpl; [|exact I].
    destruct o as [r|].
    - destruct He as [Hk _]. rewrite Hk. simpl. rewrite IH. reflexivity.
    - rewrite He. exact IH. }
  destruct (process_resumes_index _ _ _ _ _ _ _ jd_skills resumes); [|exact I].
  split; [exact HN|]. apply HF.
  intros e r Er.
  pose proof (analyse_entry_index_spec b64decode extract_text_from_pdf
    extract_text_from_docx candidate_email_of llm_present analysis_call json_loads
    jd_skills e) as He.
  rewrite Er in He. destruct He as [_ [_ [fb [s [_ [Hs [Hsc [Hv _]]]]]]]].
  apply score_resume_index_Ok in Hs. destruct Hs as [Hok [Hv' _]].
  rewrite Hv, Hsc, Hv'. split; [reflexivity | apply Hok].
Qed.

End LoopProperties.

(** Without an LLM client, a resume's score is its rounded hard-match score,
    at most 50, so its verdict is never "High", and its suggestions are the
    fixed notice of each variant. *)
Theorem no_llm_score_capped
  (b64decode : string -> option (list Byte.byte))
  (extract_text_from_pdf extract_text_from_docx : list Byte.byte -> string)
  (candidate_name_of candidate_email_of : string -> string)
  (semantic_call feedback_call analysis_call : string -> llm_call)
  (json_loads : string -> Exc pyval)
  (jd_text : string) (jd_skills : list string) (resumes : list entry) :
  match process_resumes_app b64decode extract_text_from_pdf extract_text_from_docx
          candidate_name_of candidate_email_of false semantic_call feedback_call
          jd_text resumes with
  | Ok results =>
      Forall (fun r => (ra_score r <= 50)%Z /\ ra_verdict r <> "High" /\
                ra_suggestions r = PStr "LLM not available. Please set the GOOGLE_API_KEY.")
        results
  | Raise _ => True
  end /\
  match process_resumes_index b64decode extract_text_from_pdf extract_text_from_docx
          candidate_email_of false analysis_call json_loads jd_skills resumes with
  | Ok results =>
      Forall (fun r => (ri_score r <= 50)%Z /\ ri_verdict r <> "High" /\
                ri_suggestions r = PStr "LLM not available.")
        results
  | Raise _ => True
  end.
Proof.
  split.
  - apply process_app_Forall. intros e r Er.
    pose proof (analyse_entry_app_spec b64decode extract_text_from_pdf
      extract_text_from_docx candidate_name_of candidate_email_of false
      semantic_call feedback_call jd_text e) as He.
    rewrite Er in He.
    destruct He as [_ [fb [s [_ [_ [Hs [Hsc [Hv [_ [_ Hsug]]]]]]]]]].
    apply score_resume_app_Ok in Hs.
    destruct Hs as [Hok [Hv' [_ [Hsem [sug [Hf Hsug']]]]]].
    simpl in Hsem, Hf. injection Hsem as Hsem. injection Hf as <-.
    assert (Ht : (sc_total s <= 50)%Z).
    { apply total_le_50; [exact Hok | right; rewrite <- Hsem; reflexivity]. }
    rewrite Hsc, Hv, Hsug, Hv', Hsug'.
    split; [exact Ht|]. split; [apply verdict_low_score, Ht | reflexivity].
  - apply process_index_Forall. intros e r Er.
    pose proof (analyse_entry_index_spec b64decode extract_text_from_pdf
      extract_text_from_docx candidate_email_of false analysis_call json_loads
      jd_skills e) as He.
    rewrite Er in He.
    destruct He as [_ [_ [fb [s [_ [Hs [Hsc [Hv [_ Hsug]]]]]]]]].
    apply score_resume_index_Ok in Hs.
    destruct Hs as [Hok [Hv' [_ [a [Ha [Hsem Hsug']]]]]].
    simpl in Ha. injection Ha as <-.
    assert (Ht : (sc_total s <= 50)%Z).
    { apply total_le_50; [exact Hok | right; rewrite Hsem; reflexivity]. }
    rewrite Hsc, Hv, Hsug, Hv', Hsug'.
    split; [exact Ht|]. split; [apply verdict_low_score, Ht | reflexivity].
Qed.

(** A job description without any known skill: [app.py] matches and misses
    nothing, and with an empty skill list [index.py] misses nothing; in both
    the score is the rounded semantic score, at most 50, so the verdict is
    never "High". *)
Theorem jd_without_skills
  (b64decode : string -> option (list Byte.byte))
  (extract_text_from_pdf extract_text_from_docx : list Byte.byte -> string)
  (candidate_name_of candidate_email_of : string -> string) (llm_present : bool)
  (semantic_call feedback_call analysis_call : string -> llm_call)
  (json_loads : string -> Exc pyval)
  (jd_text : string) (resumes : list entry) (Hjd : skill_set jd_text = []) :
  match process_resumes_app b64decode extract_text_from_pdf extract_text_from_docx
          candidate_name_of candidate_email_of llm_present semantic_call feedback_call
          jd_text resumes with
  | Ok results =>
      Forall (fun r => ra_matchedSkills r = [] /\ ra_missingSkills r = [] /\
                (ra_score r <= 50)%Z /\ ra_verdict r <> "High") results
  | Raise _ => True
  end /\
  match process_resumes_index b64decode extract_text_from_pdf extract_text_from_docx
          candidate_email_of llm_present analysis_call json_loads [] resumes with
  | Ok results =>
      Forall (fun r => ri_missingSkills r = [] /\
                (ri_score r <= 50)%Z /\ ri_verdict r <> "High") results
  | Raise _ => True
  end.
Proof.
  split.
  - apply process_app_Forall. intros e r Er.
    pose proof (analyse_entry_app_spec b64decode extract_text_from_pdf
      extract_text_from_docx candidate_name_of candidate_email_of llm_present
      semantic_call feedback_call jd_text e) as He.
    rewrite Er in He.
    destruct He as [_ [fb [s [_ [_ [Hs [Hsc [Hv [Hm [Hmi _]]]]]]]]]].
    apply score_resume_app_Ok in Hs.
    destruct Hs as [Hok [Hv' [Hh _]]].
    unfold get_hard_match_score in Hh. rewrite Hjd in Hh.
    injection Hh as Hh0 Hm0 Hmi0.
    assert (Ht : (sc_total s <= 50)%Z).
    { apply total_le_50; [exact Hok | left; rewrite <- Hh0; reflexivity]. }
    rewrite Hm, Hmi, Hsc, Hv, Hv', <- Hm0, <- Hmi0.
    split; [reflexivity|]. split; [reflexivity|].
    split; [exact Ht | apply verdict_low_score, Ht].
  - apply process_index_Forall. intros e r Er.
    pose proof (analyse_entry_index_spec b64decode extract_text_from_pdf
      extract_text_from_docx candidate_email_of llm_present analysis_call json_loads
      [] e) as He.
    rewrite Er in He.
    destruct He as [_ [_ [fb [s [_ [Hs [Hsc [Hv [Hmi _]]]]]]]]].
    apply score_resume_index_Ok in Hs.
    destruct Hs as [Hok [Hv' [Hh _]]].
    simpl in Hh. injection Hh as Hh0 Hm0 Hmi0.
    assert (Ht : (sc_total s <= 50)%Z).
    { apply total_le_50; [exact Hok | left; rewrite <- Hh0; reflexivity]. }
    rewrite Hmi, Hsc, Hv, Hv', <- Hmi0.
    split; [reflexivity|]. split; [exact Ht | apply verdict_low_score, Ht].
Qed.

(** ** The job description of a request *)

Lemma find_key_absent (k : string) (kvs : list (string * pyval)) :
  ~ In k (map fst kvs) -> find (fun kv => String.eqb (fst kv) k) kvs = None.
Proof.
  induction kvs as [|[k' v] t IH]; intros Hn; [reflexivity|].
  simpl in *. destruct (String.eqb_spec k' k) as [->|_]; [tauto|].
  apply IH. tauto.
Qed.

(** A request object without the key "job_description", or whose value
    there is the empty string, yields the empty text, which [index.py]
    rejects with [ValueError]. *)
Theorem jd_text_missing_or_empty
  (b64decode : string -> option (list Byte.byte))
  (extract_text_from_pdf extract_text_from_docx : list Byte.byte -> string)
  (kvs : list (string * pyval))
  (Hkey : ~ In "job_description" (map fst kvs) \/
          find (fun kv => String.eqb (fst kv) "job_description") kvs
            = Some ("job_description", PStr "")) :
  job_description_text b64decode extract_text_from_pdf extract_text_from_docx (PDict kvs)
    = Ok (PStr "") /\
  job_description_text_index b64decode extract_text_from_pdf extract_text_from_docx
    (PDict kvs) = Raise ValueError.
Proof.
  assert (Hf : py_get (PDict kvs) "job_description" (PStr "") = Ok (PStr "")).
  { simpl. destruct Hkey as [H | H]; [rewrite find_key_absent by exact H | rewrite H];
      reflexivity. }
  unfold job_description_text_index, job_description_text.
  rewrite Hf. simpl. split; reflexivity.
Qed.

(** A [data:] URL whose header names neither PDF nor a Word document
    (case-insensitively) gives the empty text, so [app.py] scores against
    an empty job description and [index.py] raises [ValueError]. *)
Theorem jd_data_url_unknown_type
  (b64decode : string -> option (list Byte.byte))
  (extract_text_from_pdf extract_text_from_docx : list Byte.byte -> string)
  (body : pyval) (s header jd_base64 : string) (jd_bytes : list Byte.byte)
  (Hget : py_get body "job_description" (PStr "") = Ok (PStr s))
  (Hdata : String.prefix "data:" s = true)
  (Hsplit : split_comma s = Some (header, jd_base64))
  (Hdec : b64decode jd_base64 = Some jd_bytes)
  (Hpdf : contains (lower header) "pdf" = false)
  (Hdocx : contains (lower header) "wordprocessingml" = false) :
  job_description_text b64decode extract_text_from_pdf extract_text_from_docx body
    = Ok (PStr "") /\
  job_description_text_index b64decode extract_text_from_pdf extract_text_from_docx body
    = Raise ValueError.
Proof.
  unfold job_description_text_index, job_description_text.
  rewrite Hget. simpl. rewrite Hdata, Hsplit, Hdec, Hpdf, Hdocx. split; reflexivity.
Qed.

(** ** Extracting JSON from an LLM reply *)

Lemma drop_while_app_all (f : ascii -> bool) (l r : list ascii) :
  forallb f l = true -> drop_while f (l ++ r)%list = drop_while f r.
Proof.
  induction l as [|c t IH]; simpl; [reflexivity|].
  intros H. apply andb_true_iff in H. destruct H as [Hc Ht]. rewrite Hc. apply IH, Ht.
Qed.

Lemma upto_last_app (d : ascii) (mid post : list ascii) :
  memc d post = false -> upto_last d (mid ++ d :: post)%list = (mid ++ [d])%list.
Proof.
  intros Hp. unfold upto_last.
  rewrite rev_app_distr. simpl. rewrite <- app_assoc.
  rewrite drop_while_app_all.
  - simpl. rewrite Ascii.eqb_refl. simpl. rewrite rev_involutive. reflexivity.
  - apply forallb_forall. intros c Hc. apply in_rev in Hc.
    destruct (Ascii.eqb_spec c d) as [->|]; [|reflexivity].
    exfalso. unfold memc in Hp.
    assert (existsb (fun c => (c =? d)%char) post = true) as Hx.
    { apply existsb_exists. exists d. split; [exact Hc | apply Ascii.eqb_refl]. }
    congruence.
Qed.

Lemma memc_app_cons (d : ascii) (mid post : list ascii) : memc d (mid ++ d :: post)%list = true.
Proof.
  unfold memc. apply existsb_exists. exists d.
  split; [apply in_or_app; right; left; reflexivity | apply Ascii.eqb_refl].
Qed.

Lemma json_search_skip (pre r : list ascii) :
  forallb (fun c => negb ((c =? "{")%char || (c =? "[")%char)) pre = true ->
  json_search (pre ++ r)%list = json_search r.
Proof.
  induction pre as [|c t IH]; simpl; [reflexivity|].
  intros H. apply andb_true_iff in H. destruct H as [Hc Ht].
  apply negb_true_iff, orb_false_iff in Hc. destruct Hc as [H1 H2].
  rewrite H1, H2. simpl. apply IH, Ht.
Qed.

(** A reply made of text without an opening brace or bracket, then a JSON
    candidate from an opening brace (bracket) to a closing one, then text
    without a closing brace (bracket): the greedy search takes exactly that
    candidate, whatever it contains. The parser returns its decoding, or
    the default ([default_value or {}]) when [json.loads] raises
    [JSONDecodeError]; any other exception of [json.loads] propagates. *)
Theorem json_reply_extraction (json_loads : string -> Exc pyval)
  (pre mid post : list ascii) (o cl : ascii) (default_value : option pyval)
  (Hoc : (o, cl) = ("{"%char, "}"%char) \/ (o, cl) = ("["%char, "]"%char))
  (Hpre : forallb (fun c => negb ((c =? "{")%char || (c =? "[")%char)) pre = true)
  (Hpost : memc cl post = false) :
  json_search (pre ++ (o :: mid ++ [cl]) ++ post)%list = Some (o :: mid ++ [cl])%list /\
  parse_llm_json_response json_loads
    (string_of_list_ascii (pre ++ (o :: mid ++ [cl]) ++ post)%list) default_value
  = match json_loads (string_of_list_ascii (o :: mid ++ [cl])%list) with
    | Ok v => Ok v
    | Raise JSONDecodeError => Ok (or_empty_dict default_value)
    | Raise e => Raise e
    end.
Proof.
  assert (Hs : json_search (pre ++ (o :: mid ++ [cl]) ++ post)%list = Some (o :: mid ++ [cl])%list).
  { rewrite json_search_skip by exact Hpre.
    simpl. rewrite <- app_assoc. simpl.
    destruct Hoc as [E | E]; injection E as -> ->; simpl;
      rewrite memc_app_cons, upto_last_app by exact Hpost; reflexivity. }
  split; [exact Hs|].
  unfold parse_llm_json_response. rewrite list_ascii_of_string_of_list_ascii, Hs.
  reflexivity.
Qed.

(** ** The LLM analysis of [index.py] *)



(** ** The semantic score of [app.py] *)

Lemma first_digit_run_none (l : list ascii) :
  forallb (fun c => negb (is_digit c)) l = true -> first_digit_run l = None.
Proof.
  induction l as [|c t IH]; simpl; [reflexivity|].
  intros H. apply andb_true_iff in H. destruct H as [Hc Ht].
  apply negb_true_iff in Hc. rewrite Hc. apply IH, Ht.
Qed.

(** A reply without any digit scores 25, half of the semantic range; a
    failing call scores 0. *)
Theorem semantic_score_no_digits (text : string)
  (Hnd : forallb (fun c => negb (is_digit c)) (list_ascii_of_string text) = true) :
  get_semantic_match_score true (Ok text) = Ok (inject_Z 25) /\
  (forall ex, get_semantic_match_score true (Raise ex) = Ok 0%Q).
Proof.
  split; [|reflexivity].
  unfold get_semantic_match_score. simpl. rewrite first_digit_run_none by exact Hnd.
  reflexivity.
Qed.

(** ** Instances of the properties above *)

(** A job description naming no known skill, one PDF resume, an LLM that
    answers "80". *)
Lemma jd_without_skills_witness :
  let b64 := fun _ : string => Some (@nil Byte.byte) in
  let pdf := fun _ : list Byte.byte => "Jane Doe, Python and SQL" in
  let docx := fun _ : list Byte.byte => "" in
  let name := fun _ : string => "Jane Doe" in
  let email := fun _ : string => "N/A" in
  let call := fun _ : string => @Ok string "80" in
  let loads := fun _ : string => Ok (PDict [("score", PInt 80)]) in
  let jd := "Friendly colleague wanted" in
  let e := {| fileName := Some "cv.pdf"; content := Some "data:application/pdf;base64,aGk=" |} in
  skill_set jd = [] /\
  (match process_resumes_app b64 pdf docx name email true call call jd [e] with
   | Ok results =>
       Forall (fun r => ra_matchedSkills r = [] /\ ra_missingSkills r = [] /\
                 (ra_score r <= 50)%Z /\ ra_verdict r <> "High") results
   | Raise _ => True
   end /\
   match process_resumes_index b64 pdf docx email true call loads [] [e] with
   | Ok results =>
       Forall (fun r => ri_missingSkills r = [] /\
                 (ri_score r <= 50)%Z /\ ri_verdict r <> "High") results
   | Raise _ => True
   end).
Proof.
  intros b64 pdf docx name email call loads jd e.
  split; [reflexivity|].
  apply (jd_without_skills b64 pdf docx name email true call call call loads jd [e]).
  reflexivity.
Defined.

(** A request whose job description is the empty string. *)
Lemma jd_text_missing_or_empty_witness :
  let b64 := fun _ : string => Some (@nil Byte.byte) in
  let pdf := fun _ : list Byte.byte => "Python" in
  let docx := fun _ : list Byte.byte => "SQL" in
  let kvs := [("job_description", PStr ""); ("resumes", PList [])] in
  job_description_text b64 pdf docx (PDict kvs) = Ok (PStr "") /\
  job_description_text_index b64 pdf docx (PDict kvs) = Raise ValueError.
Proof.
  intros b64 pdf docx kvs.
  apply (jd_text_missing_or_empty b64 pdf docx kvs). right. reflexivity.
Defined.

(** A plain-text job description sent as a [data:] URL. *)
Lemma jd_data_url_unknown_type_witness :
  let b64 := fun _ : string => Some (@nil Byte.byte) in
  let pdf := fun _ : list Byte.byte => "Python" in
  let docx := fun _ : list Byte.byte => "SQL" in
  let body := PDict [("job_description", PStr "data:text/plain;base64,aGk=")] in
  job_description_text b64 pdf docx body = Ok (PStr "") /\
  job_description_text_index b64 pdf docx body = Raise ValueError.
Proof.
  intros b64 pdf docx body.
  apply (jd_data_url_unknown_type b64 pdf docx body "data:text/plain;base64,aGk="
           "data:text/plain;base64" "aGk=" []); reflexivity.
Defined.

(** A JSON array inside prose. *)
Lemma json_reply_extraction_witness :
  let loads := fun s : string =>
    if String.eqb s "[1, 2]" then Ok (PList [PInt 1; PInt 2]) else Raise JSONDecodeError in
  let pre := list_ascii_of_string "Sure: " in
  let mid := list_ascii_of_string "1, 2" in
  let post := list_ascii_of_string " (done)." in
  json_search (pre ++ ("["%char :: mid ++ ["]"%char]) ++ post)%list
    = Some ("["%char :: mid ++ ["]"%char])%list /\
  parse_llm_json_response loads
    (string_of_list_ascii (pre ++ ("["%char :: mid ++ ["]"%char]) ++ post)%list) None
  = match loads (string_of_list_ascii ("["%char :: mid ++ ["]"%char])%list) with
    | Ok v => Ok v
    | Raise JSONDecodeError => Ok (or_empty_dict None)
    | Raise e => Raise e
    end.
Proof.
  intros loads pre mid post.
  apply (json_reply_extraction loads pre mid post "["%char "]"%char None);
    [right; reflexivity | reflexivity | reflexivity].
Defined.


(** A reply without digits. *)
Lemma semantic_score_no_digits_witness :
  get_semantic_match_score true (Ok "Not sure.") = Ok (inject_Z 25) /\
  (forall ex, get_semantic_match_score true (Raise ex) = Ok 0%Q).
Proof.
  apply (semantic_score_no_digits "Not sure."). reflexivity.
Defined.

(** ** Entries with an unsupported file type *)

Section Batch.

Variable b64decode : string -> option (list Byte.byte).
Variable extract_text_from_pdf extract_text_from_docx : list Byte.byte -> string.
Variable candidate_name_of candidate_email_of : string -> string.
Variable llm_present : bool.
Variable semantic_call feedback_call analysis_call : string -> llm_call.
Variable json_loads : string -> Exc pyval.

Let process_app := process_resumes_app b64decode extract_text_from_pdf
  extract_text_from_docx candidate_name_of candidate_email_of llm_present
  semantic_call feedback_call.
Let analyse_app := analyse_entry_app b64decode extract_text_from_pdf
  extract_text_from_docx candidate_name_of candidate_email_of llm_present
  semantic_call feedback_call.


End Batch.


